(** * Cosmozoom backend: tile request validation, URL resolution and
      upstream classification

    A shallow embedding of the four tile routers of the Cosmozoom backend
    (gibs_service.py, moon_service.py, mars_service.py, mercury_service.py
    and the tables of config.py), followed by the theorems that relate the
    specification's statements to that code. *)

From Stdlib Require Import ZArith QArith Lia String Ascii List Bool.
From stdpp Require Import base decidable option gmap strings pretty.

Local Open Scope string_scope.
Local Open Scope Z_scope.

(** ** The Python builtins the handlers rely on *)

Module Py.

(** A [str] is held as the bytes of its UTF-8 encoding.  [isascii] and
    [latin1] below are exact on every [str].  [lower], [upper] and [strip]
    are Python's on ASCII text, that is on the strings [isascii] accepts;
    outside ASCII Python consults the Unicode tables ([str.lower] turns the
    Kelvin sign into k, [str.strip] removes a no-break space), which are
    not modelled: a statement that reads the result of one of them on a
    caller's string takes [isascii] of that string as a hypothesis, unless
    it holds of the code without it. *)

(** [str.isascii()]: every code point is below 128, so every byte is. *)
Definition isascii (s : string) : bool :=
  forallb (λ c, (nat_of_ascii c <? 128)%nat) (list_ascii_of_string s).

(** Whether [s.encode("latin-1")] succeeds: every code point is below
    256.  UTF-8 writes such a code point as one byte below 128 or as the
    lead byte 0xC2 or 0xC3 and a continuation byte, and every code point
    from 256 on with a lead byte from 0xC4 on. *)
Definition latin1 (s : string) : bool :=
  forallb (λ c, (nat_of_ascii c <? 196)%nat) (list_ascii_of_string s).

Definition is_upper (c : ascii) : bool :=
  let n := nat_of_ascii c in (65 <=? n)%nat && (n <=? 90)%nat.

Definition lower_char (c : ascii) : ascii :=
  if is_upper c then ascii_of_nat (nat_of_ascii c + 32) else c.



(** [str.lower()], on ASCII text. *)
Fixpoint lower (s : string) : string :=
  match s with
  | EmptyString => EmptyString
  | String c s' => String (lower_char c) (lower s')
  end.


(** [str.isspace] on one ASCII character: TAB, LF, VT, FF, CR, the four
    separators FS, GS, RS, US and the space. *)
Definition isspace (c : ascii) : bool :=
  let n := nat_of_ascii c in
  ((9 <=? n)%nat && (n <=? 13)%nat) || ((28 <=? n)%nat && (n <=? 32)%nat).

Fixpoint lstrip (s : string) : string :=
  match s with
  | EmptyString => EmptyString
  | String c s' => if isspace c then lstrip s' else s
  end.

Fixpoint rstrip (s : string) : string :=
  match s with
  | EmptyString => EmptyString
  | String c s' =>
      match rstrip s' with
      | EmptyString => if isspace c then EmptyString else String c EmptyString
      | r => String c r
      end
  end.

(** [str.strip()], on ASCII text. *)
Definition strip (s : string) : string := rstrip (lstrip s).

(** [str(n)] and the [{n}] of an f-string, for an [int]. *)
Definition str (n : Z) : string := pretty n.

(** [2 ** z] for an [int] z.  For [z >= 0] the result is the exact
    integer.  For a negative exponent Python answers with the float
    [2.0 ** z]: the exact dyadic fraction down to the smallest subnormal
    [2 ** -1074], and [0.0] below it.  Comparisons of an [int] with that
    value are exact in Python, so a rational carries them. *)
Definition pow2 (z : Z) : Q :=
  if 0 <=? z then inject_Z (2 ^ z)
  else if z <? -1074 then 0%Q
  else (1 # Pos.pow 2 (Z.to_pos (- z)))%Q.

(** [n >= v] and [n < v] for an [int] n against the value of [2 ** z]. *)
Definition ge_num (n : Z) (v : Q) : bool := Qle_bool v (inject_Z n).
Definition lt_num (n : Z) (v : Q) : bool := negb (Qle_bool v (inject_Z n)).

End Py.

(** ** JSON-like values: the [detail] of an [HTTPException] *)

#[warnings="-register-all"]
Inductive json : Type :=
| JStr (s : string)
| JInt (n : Z)
| JNum (q : Q)
| JList (l : list json)
| JDict (kv : list (string * json)).

(** [d[k]] on a dict literal. *)
Fixpoint assoc (k : string) (kv : list (string * json)) : option json :=
  match kv with
  | [] => None
  | (k', v) :: kv' => if String.eqb k k' then Some v else assoc k kv'
  end.

Definition field (k : string) (d : json) : option json :=
  match d with
  | JDict kv => assoc k kv
  | _ => None
  end.

(** ** [datetime]: parsing with [strptime] and comparison *)

Module Datetime.

(** A naive [datetime.datetime]. *)
Record datetime : Type := mk_datetime
  { year : Z; month : Z; day : Z;
    hour : Z; minute : Z; second : Z; microsecond : Z }.

Definition is_leap (y : Z) : bool :=
  (y mod 4 =? 0) && (negb (y mod 100 =? 0) || (y mod 400 =? 0)).

Definition days_in_month (y m : Z) : Z :=
  if m =? 2 then (if is_leap y then 29 else 28)
  else if (m =? 4) || (m =? 6) || (m =? 9) || (m =? 11) then 30
  else 31.

(** The check [datetime.date(y, m, d)] makes: MINYEAR = 1, MAXYEAR = 9999. *)
Definition valid_date (y m d : Z) : bool :=
  (1 <=? y) && (y <=? 9999) && (1 <=? m) && (m <=? 12) &&
  (1 <=? d) && (d <=? days_in_month y m).

Definition is_digit (c : ascii) : bool :=
  let n := nat_of_ascii c in (48 <=? n)%nat && (n <=? 57)%nat.

Definition digit_val (c : ascii) : Z := Z.of_nat (nat_of_ascii c) - 48.

Definition in_range (lo hi : nat) (c : ascii) : bool :=
  let n := nat_of_ascii c in (lo <=? n)%nat && (n <=? hi)%nat.

(** The directives of [_strptime]'s regular expression.  Each returns the
    ways it can match a prefix of the input, first alternative first, with
    the value read and the rest of the input, so that the caller
    backtracks the way [re.match] does.  The expression is read on ASCII
    text: Python's [\d] also matches the decimal digits of other scripts,
    which [int] converts, so that outside ASCII [strptime] accepts strings
    this model refuses. *)

(** [%Y] is [\d\d\d\d]. *)
Definition re_Y (s : string) : list (Z * string) :=
  match s with
  | String a (String b (String c (String d r)))  =>
      if is_digit a && is_digit b && is_digit c && is_digit d
      then [(1000 * digit_val a + 100 * digit_val b + 10 * digit_val c
             + digit_val d, r)]
      else []
  | _ => []
  end.

(** One alternative made of exactly two characters. *)
Definition two_chars (p1 p2 : ascii -> bool) (s : string) : list (Z * string) :=
  match s with
  | String a (String b r) =>
      if p1 a && p2 b then [(10 * digit_val a + digit_val b, r)] else []
  | _ => []
  end.

(** One alternative made of exactly one character. *)
Definition one_char (p : ascii -> bool) (s : string) : list (Z * string) :=
  match s with
  | String a r => if p a then [(digit_val a, r)] else []
  | _ => []
  end.

(** [%m] is [1[0-2]|0[1-9]|[1-9]]. *)
Definition re_m (s : string) : list (Z * string) :=
  two_chars (in_range 49 49) (in_range 48 50) s
  ++ two_chars (in_range 48 48) (in_range 49 57) s
  ++ one_char (in_range 49 57) s.

(** [%d] is [3[0-1]|[1-2]\d|0[1-9]|[1-9]| [1-9]]; the last alternative
    reads a space and one digit. *)
Definition re_d (s : string) : list (Z * string) :=
  two_chars (in_range 51 51) (in_range 48 49) s
  ++ two_chars (in_range 49 50) is_digit s
  ++ two_chars (in_range 48 48) (in_range 49 57) s
  ++ one_char (in_range 49 57) s
  ++ match s with
     | String a (String b r) =>
         if in_range 32 32 a && in_range 49 57 b then [(digit_val b, r)] else []
     | _ => []
     end.

(** A literal character of the format. *)
Definition re_lit (c : ascii) (s : string) : list string :=
  match s with
  | String a r => if Ascii.eqb a c then [r] else []
  | _ => []
  end.

(** [format_regex.match(data_string)] for the format ["%Y-%m-%d"]: the
    first way to match the whole expression, with what is left over. *)
Definition match_Ymd (s : string) : option (Z * Z * Z * string) :=
  head
    (y ← re_Y s; r1 ← re_lit "-" y.2;
     m ← re_m r1; r2 ← re_lit "-" m.2;
     d ← re_d r2;
     [(y.1, m.1, d.1, d.2)]).

(** [datetime.strptime(s, "%Y-%m-%d")]; [None] is the [ValueError] raised
    when the string does not match, when unconverted data remains, or when
    the fields are not a date of the calendar. *)
Definition strptime_Ymd (s : string) : option datetime :=
  match match_Ymd s with
  | Some (y, m, d, EmptyString) =>
      if valid_date y m d then Some (mk_datetime y m d 0 0 0 0) else None
  | _ => None
  end.

Definition as_tuple (t : datetime) : list Z :=
  [year t; month t; day t; hour t; minute t; second t; microsecond t].

(** Lexicographic [>] on tuples of equal length. *)
Fixpoint lex_gt (a b : list Z) : bool :=
  match a, b with
  | x :: a', y :: b' => (y <? x) || ((x =? y) && lex_gt a' b')
  | _, _ => false
  end.

(** [a > b] on naive datetimes. *)
Definition gt (a b : datetime) : bool := lex_gt (as_tuple a) (as_tuple b).

(** The calendar date of a datetime, and [>] on dates. *)
Definition date_of (t : datetime) : list Z := [year t; month t; day t].

(** What [datetime.utcnow()] can return: a date of the calendar and a
    time of day. *)
Definition wellformed (t : datetime) : bool :=
  valid_date (year t) (month t) (day t) &&
  (0 <=? hour t) && (hour t <=? 23) && (0 <=? minute t) && (minute t <=? 59) &&
  (0 <=? second t) && (second t <=? 59) &&
  (0 <=? microsecond t) && (microsecond t <=? 999999).

(** Left-pads the decimal of [n] with zeros to [w] characters. *)
Definition zpad (w : nat) (n : Z) : string :=
  let s := Py.str n in
  String.concat "" (repeat "0" (w - String.length s)) ++ s.

(** [t.strftime("%Y-%m-%d")] *)
Definition strftime_Ymd (t : datetime) : string :=
  zpad 4 (year t) ++ "-" ++ zpad 2 (month t) ++ "-" ++ zpad 2 (day t).

(** [t.isoformat()]: the microseconds are written only when they are not
    zero. *)
Definition isoformat (t : datetime) : string :=
  zpad 4 (year t) ++ "-" ++ zpad 2 (month t) ++ "-" ++ zpad 2 (day t) ++ "T"
  ++ zpad 2 (hour t) ++ ":" ++ zpad 2 (minute t) ++ ":" ++ zpad 2 (second t)
  ++ (if microsecond t =? 0 then "" else "." ++ zpad 6 (microsecond t)).

End Datetime.

(** ** The HTTP client, the responses of a handler and its effects *)

(** What [await client.get(tile_url)] can do: answer with a status and a
    body, or raise.  [httpx.TimeoutException] is a subclass of
    [httpx.RequestError], itself a subclass of [httpx.HTTPError]. *)
Inductive http_result : Type :=
| Responded (status_code : Z) (content : string)
| RaisedTimeout (msg : string)        (* httpx.TimeoutException *)
| RaisedRequestError (msg : string)   (* any other httpx.RequestError *)
| RaisedOther (type_name : string).   (* an exception outside httpx.HTTPError *)

(** [response.is_success], the test of [response.raise_for_status()]. *)
Definition is_success (status_code : Z) : bool :=
  (200 <=? status_code) && (status_code <=? 299).

(** How a call of a tile route ends. *)
Inductive response : Type :=
| Response (content : string) (media_type : string)
           (headers : list (string * string))
| HTTPException (status_code : Z) (detail : json)
| RequestValidationError
    (* FastAPI's answer, status 422, to a parameter that breaks a
       constraint declared with [Query]; the handler is not called *)
| Unhandled (type_name : string).
    (* an exception no handler catches *)

Definition status_of (r : response) : Z :=
  match r with
  | Response _ _ _ => 200
  | HTTPException sc _ => sc
  | RequestValidationError => 422
  | Unhandled _ => 500
  end.

(** An entry of an exception's detail. *)
Definition detail_field (k : string) (r : response) : option json :=
  match r with
  | HTTPException _ d => field k d
  | _ => None
  end.

(** The [error] entry of an exception's detail. *)
Definition error_of (r : response) : option json := detail_field "error" r.

(** [Response(content=..., media_type=..., headers=...)].  Starlette's
    [Response.__init__] calls [init_headers], which encodes the name and
    the value of every header, and then the media type, as latin-1: the
    constructor raises [UnicodeEncodeError], here [None], when one of them
    has a character outside latin-1. *)
Definition init_headers (media_type : string)
    (headers : list (string * string)) : bool :=
  forallb (λ kv, Py.latin1 (Py.lower kv.1) && Py.latin1 kv.2) headers
  && Py.latin1 media_type.

Definition new_Response (content media_type : string)
    (headers : list (string * string)) : option response :=
  if init_headers media_type headers
  then Some (Response content media_type headers)
  else None.

(** A handler is a program over one effect, the upstream GET. *)
Inductive prog : Type :=
| Ret (r : response)
| HttpGet (url : string) (timeout : Q) (k : http_result -> prog).

(** Runs a program against an upstream; returns the URLs requested, in
    order, and the response. *)
Fixpoint run (upstream : string -> http_result) (p : prog)
  : list string * response :=
  match p with
  | Ret r => ([], r)
  | HttpGet url _ k =>
      let '(t, r) := run upstream (k (upstream url)) in (url :: t, r)
  end.

(** Validation helpers either return or raise an [HTTPException]. *)
Inductive exc (A : Type) : Type :=
| Ok (a : A)
| Raise (e : response).
Arguments Ok {A} a.
Arguments Raise {A} e.

#[global] Instance exc_bind : MBind exc := λ A B k m,
  match m with
  | Ok a => k a
  | Raise e => Raise e
  end.

(** [if c: raise e] *)
Definition raise_if (c : bool) (e : response) : exc unit :=
  if c then Raise e else Ok tt.

(** A handler body that raised answers with the exception. *)
Definition handle (m : exc prog) : prog :=
  match m with
  | Ok p => p
  | Raise e => Ret e
  end.

(** ** config.py *)

Module config.

Definition GIBS_BASE_URL := "https://gibs.earthdata.nasa.gov/wmts/epsg3857/best".
Definition EARTH_DEFAULT_LAYER := "VIIRS_SNPP_CorrectedReflectance_TrueColor".
Definition EARTH_DEFAULT_DATE := "2025-10-03".
Definition EARTH_DEFAULT_TMS := "GoogleMapsCompatible_Level9".
Definition EARTH_DEFAULT_FORMAT := "jpg".
Definition EARTH_MAX_ZOOM : Z := 9.
Definition EARTH_REQUEST_TIMEOUT : Q := 15.
Definition EARTH_CACHE_MAX_AGE : Z := 86400.

Definition TREK_MOON_BASE_URL := "https://trek.nasa.gov/tiles/Moon/EQ".
Definition MOON_DEFAULT_LAYER := "LRO_WAC_Mosaic_Global_303ppd_v02".
Definition MOON_DEFAULT_VERSION := "1.0.0".
Definition MOON_DEFAULT_STYLE := "default".
Definition MOON_DEFAULT_TMS := "default028mm".
Definition MOON_DEFAULT_FORMAT := "jpg".
Definition MOON_MAX_ZOOM : Z := 10.
Definition MOON_REQUEST_TIMEOUT : Q := 15.
Definition MOON_CACHE_MAX_AGE : Z := 2592000.

Definition CONTENT_TYPE_MAP : gmap string string :=
  <["jpg" := "image/jpeg"]>
  (<["jpeg" := "image/jpeg"]>
  (<["png" := "image/png"]>
  (<["png8" := "image/png"]>
  (<["tif" := "image/tiff"]>
  (<["tiff" := "image/tiff"]> ∅))))).

Definition TREK_MERCURY_BASE_URL := "https://trek.nasa.gov/tiles/Mercury/EQ".
Definition MERCURY_DEFAULT_LAYER :=
  "Mercury_MESSENGER_MDIS_Basemap_EnhancedColor_Mosaic_Global_665m".
Definition MERCURY_DEFAULT_VERSION := "1.0.0".
Definition MERCURY_DEFAULT_STYLE := "default".
Definition MERCURY_DEFAULT_TMS := "default028mm".
Definition MERCURY_DEFAULT_FORMAT := "jpg".
Definition MERCURY_MAX_ZOOM : Z := 7.
Definition MERCURY_REQUEST_TIMEOUT : Q := 15.
Definition MERCURY_CACHE_MAX_AGE : Z := 2592000.

(** [CONTENT_TYPE_MAP.get(format, "image/jpeg")] *)
Definition content_type (format : string) : string :=
  default "image/jpeg" (CONTENT_TYPE_MAP !! format).

End config.

(** ** mars_service.py *)

Module mars_service.

Definition TREK_MARS_BASE_URL := "https://trek.nasa.gov/tiles/Mars/EQ".
Definition MARS_DEFAULT_LAYER := "Mars_Viking_MDIM21_ClrMosaic_global_232m".
Definition MARS_DEFAULT_VERSION := "1.0.0".
Definition MARS_DEFAULT_STYLE := "default".
Definition MARS_DEFAULT_TMS := "default028mm".
Definition MARS_DEFAULT_FORMAT := "jpg".
Definition MARS_REQUEST_TIMEOUT : Q := 15.
Definition MARS_CACHE_MAX_AGE : Z := 2592000.

(** [int(os.getenv("MARS_MAX_ZOOM", "7"))], read once when the module is
    loaded; the argument is the integer the variable holds, if it is set. *)
Definition max_zoom_of_env (MARS_MAX_ZOOM : option Z) : Z :=
  default 7 MARS_MAX_ZOOM.

Definition MIN_ZOOM : Z := 0.

Definition VIKING := "Mars_Viking_MDIM21_ClrMosaic_global_232m".
Definition MOLA := "Mars_MGS_MOLA_MEGR_global_463m".

Definition SUPPORTED_LAYERS : gmap string string :=
  <["mars_viking_mdim21_clrmosaic_global_232m" := VIKING]>
  (<["viking" := VIKING]>
  (<["viking color mosaic" := VIKING]>
  (<["mars_viking" := VIKING]>
  (<["mars_mgs_mola_megr_global_463m" := MOLA]>
  (<["mola" := MOLA]>
  (<["mola elevation" := MOLA]>
  (<["mars_mgs_mola" := MOLA]> ∅))))))).

Section WithMaxZoom.

(** The value of the module constant [MAX_ZOOM]. *)
Variable MAX_ZOOM : Z.

Definition LAYER_METADATA : list (string * json) :=
  [ (VIKING, JDict
      [ ("id", JStr VIKING);
        ("title", JStr "Viking Color Mosaic");
        ("name", JStr "Viking Color Mosaic");
        ("resolution", JStr "232 meters/pixel");
        ("source", JStr "Viking Orbiter 1 & 2");
        ("type", JStr "color mosaic");
        ("coverage", JStr "Global");
        ("minZoom", JInt MIN_ZOOM);
        ("maxZoom", JInt MAX_ZOOM);
        ("formats", JList [JStr "jpg"; JStr "png"]);
        ("aliases", JList [JStr "viking"; JStr "Viking Color Mosaic";
                           JStr "Mars_Viking"]);
        ("description",
         JStr "Global color mosaic of Mars surface from Viking missions") ]);
    (MOLA, JDict
      [ ("id", JStr MOLA);
        ("title", JStr "MOLA Elevation");
        ("name", JStr "MOLA Elevation");
        ("resolution", JStr "463 meters/pixel");
        ("source", JStr "Mars Global Surveyor MOLA");
        ("type", JStr "elevation/topography");
        ("coverage", JStr "Global");
        ("minZoom", JInt MIN_ZOOM);
        ("maxZoom", JInt MAX_ZOOM);
        ("formats", JList [JStr "jpg"; JStr "png"]);
        ("aliases", JList [JStr "mola"; JStr "MOLA Elevation";
                           JStr "Mars_MGS_MOLA"]);
        ("description",
         JStr "Topographic elevation data from Mars Global Surveyor MOLA instrument") ]) ].

(** [LAYER_METADATA[k]] for a key the table holds. *)
Definition metadata (k : string) : json :=
  default (JDict []) (assoc k LAYER_METADATA).

Definition invalid_zoom (z : Z) : response :=
  HTTPException 400 (JDict
    [ ("error", JStr "invalid_zoom");
      ("message", JStr ("z must be between " ++ Py.str MIN_ZOOM ++ " and "
                         ++ Py.str MAX_ZOOM ++ " for Mars tiles."));
      ("maxZoom", JInt MAX_ZOOM);
      ("minZoom", JInt MIN_ZOOM);
      ("provided", JInt z) ]).

Definition validate_zoom_level (z : Z) : exc unit :=
  raise_if ((z <? MIN_ZOOM) || (MAX_ZOOM <? z)) (invalid_zoom z).

Definition unsupported_layer (layer : string) : response :=
  HTTPException 422 (JDict
    [ ("error", JStr "unsupported_layer");
      ("message",
       JStr "Only Viking Color Mosaic and MOLA Elevation are supported.");
      ("provided", JStr layer);
      ("supported", JList [metadata VIKING; metadata MOLA]) ]).

Definition normalize_layer (layer : string) : exc string :=
  let normalized := Py.lower (Py.strip layer) in
  match SUPPORTED_LAYERS !! normalized with
  | None => Raise (unsupported_layer layer)
  | Some canonical_id => Ok canonical_id
  end.

(** The detail's [message], which formats [max_tiles - 1], is left out;
    the numbers of [valid_range] are kept. *)
Definition coordinates_out_of_bounds (z x y : Z) (max_tiles : Q) : response :=
  HTTPException 400 (JDict
    [ ("error", JStr "coordinates_out_of_bounds");
      ("provided", JDict [("x", JInt x); ("y", JInt y); ("z", JInt z)]);
      ("valid_range", JDict
         [ ("min", JInt 0);
           ("max", JNum (max_tiles - 1));
           ("tiles_per_dimension", JNum max_tiles) ]);
      ("celestial_body", JStr "Mars") ]).

Definition validate_tile_coordinates (z x y : Z) : exc unit :=
  let max_tiles := Py.pow2 z in
  raise_if (Py.ge_num x max_tiles || Py.ge_num y max_tiles
            || (x <? 0) || (y <? 0))
           (coordinates_out_of_bounds z x y max_tiles).

Definition tile_url (canonical_layer version style tile_matrix_set : string)
    (z y x : Z) (format : string) : string :=
  TREK_MARS_BASE_URL ++ "/" ++ canonical_layer ++ "/" ++ version ++ "/"
  ++ style ++ "/" ++ tile_matrix_set ++ "/" ++ Py.str z ++ "/" ++ Py.str y
  ++ "/" ++ Py.str x ++ "." ++ format.

Definition tile_not_found (url canonical_layer : string) (z y x : Z)
    (format : string) : response :=
  HTTPException 404 (JDict
    [ ("error", JStr "tile_not_found");
      ("message", JStr "The requested Mars tile does not exist. Check layer name or coordinates.");
      ("requested_url", JStr url);
      ("parameters", JDict
         [ ("layer", JStr canonical_layer); ("z", JInt z); ("y", JInt y);
           ("x", JInt x); ("format", JStr format) ]);
      ("celestial_body", JStr "Mars");
      ("suggestion", JStr "Try a different zoom level or verify the coordinates are within Mars coverage") ]).

Definition trek_service_error (url : string) (status_code : Z) : response :=
  HTTPException status_code (JDict
    [ ("error", JStr "trek_service_error");
      ("message", JStr ("NASA Trek returned HTTP " ++ Py.str status_code));
      ("requested_url", JStr url);
      ("celestial_body", JStr "Mars") ]).

Definition network_error (url msg : string) : response :=
  HTTPException 502 (JDict
    [ ("error", JStr "network_error");
      ("message", JStr ("Failed to connect to NASA Trek: " ++ msg));
      ("requested_url", JStr url);
      ("celestial_body", JStr "Mars") ]).

(** The [headers] of the tile response. *)
Definition tile_headers (canonical_layer : string) (z y x : Z)
  : list (string * string) :=
    [ ("Cache-Control", "public, max-age=" ++ Py.str MARS_CACHE_MAX_AGE);
      ("X-Tile-Source", "NASA-Trek-Mars");
      ("X-Tile-Layer", canonical_layer);
      ("X-Celestial-Body", "Mars");
      ("X-Zoom-Level", Py.str z);
      ("X-Tile-Coordinates",
       "z=" ++ Py.str z ++ ",x=" ++ Py.str x ++ ",y=" ++ Py.str y);
      ("X-Max-Zoom", Py.str MAX_ZOOM);
      ("X-Service-Version", "2.0.0");
      ("X-User", "Hamza-ali1223") ].

Definition tile_response (content canonical_layer : string) (z y x : Z)
    (format : string) : option response :=
  new_Response content (config.content_type format)
    (tile_headers canonical_layer z y x).

(** STEP 3 and STEP 4: what the handler does with the upstream's answer.
    [raise_for_status] raises [HTTPStatusError] unless the status is 2xx;
    the first [except] turns it into an exception of the same status, the
    second turns every other [httpx.HTTPError] into a 502.  An exception
    of [Response(...)] is no [httpx.HTTPError] and leaves the handler. *)
Definition classify (url canonical_layer : string) (z y x : Z)
    (format : string) (r : http_result) : response :=
  match r with
  | Responded status_code content =>
      if status_code =? 404 then tile_not_found url canonical_layer z y x format
      else if is_success status_code
      then match tile_response content canonical_layer z y x format with
           | Some built => built
           | None => Unhandled "UnicodeEncodeError"
           end
      else trek_service_error url status_code
  | RaisedTimeout msg => network_error url msg
  | RaisedRequestError msg => network_error url msg
  | RaisedOther t => Unhandled t
  end.

Definition get_mars_tile (z y x : Z)
    (layer version style tile_matrix_set format : string) : prog :=
  handle (
    validate_zoom_level z ;;
    canonical_layer ← normalize_layer layer;
    validate_tile_coordinates z x y ;;
    let url := tile_url canonical_layer version style tile_matrix_set z y x format in
    Ok (HttpGet url MARS_REQUEST_TIMEOUT
          (λ r, Ret (classify url canonical_layer z y x format r)))).

(** The constraints the route declares on its parameters with [Query]:
    [z] has [ge=MIN_ZOOM], [y] and [x] have [ge=0], [format] has
    [regex="^(jpg|jpeg|png|tif|tiff)$"]. *)
Definition query_ok (z y x : Z) (format : string) : bool :=
  (MIN_ZOOM <=? z) && (0 <=? y) && (0 <=? x)
  && bool_decide (format ∈ ["jpg"; "jpeg"; "png"; "tif"; "tiff"]).

(** GET /mars/tile: FastAPI checks the declared constraints, then calls the
    handler. *)
Definition tile_route (z y x : Z)
    (layer version style tile_matrix_set format : string) : prog :=
  if query_ok z y x format
  then get_mars_tile z y x layer version style tile_matrix_set format
  else Ret RequestValidationError.

(** GET /mars/layers *)
Definition mars_layers (utcnow : Datetime.datetime) : json :=
  JDict
    [ ("service", JStr "Mars Imagery Layers");
      ("celestial_body", JStr "Mars");
      ("total", JInt 2);
      ("default", JStr MARS_DEFAULT_LAYER);
      ("maxZoom", JInt MAX_ZOOM);
      ("minZoom", JInt MIN_ZOOM);
      ("timestamp", JStr (Datetime.isoformat utcnow ++ "Z"));
      ("note", JStr "Only Viking Color Mosaic and MOLA Elevation are supported. Layer aliases are case-insensitive.");
      ("layers", JList
         [ JDict
             [ ("id", JStr "Mars_Viking_MDIM21_ClrMosaic_global_232m");
               ("name", JStr "Viking Color Mosaic");
               ("resolution", JStr "232 meters/pixel");
               ("source", JStr "Viking Orbiter 1 & 2");
               ("type", JStr "color mosaic");
               ("coverage", JStr "Global");
               ("minZoom", JInt MIN_ZOOM);
               ("maxZoom", JInt MAX_ZOOM);
               ("formats", JList [JStr "jpg"; JStr "png"]);
               ("aliases", JList [JStr "viking"; JStr "Viking Color Mosaic";
                                  JStr "Mars_Viking"]);
               ("description", JStr "Global color mosaic of Mars surface");
               ("url_example", JStr "/mars/tile?layer=viking&z=3&y=2&x=5") ];
           JDict
             [ ("id", JStr "Mars_MGS_MOLA_MEGR_global_463m");
               ("name", JStr "MOLA Elevation");
               ("resolution", JStr "463 meters/pixel");
               ("source", JStr "Mars Global Surveyor MOLA");
               ("type", JStr "elevation/topography");
               ("coverage", JStr "Global");
               ("minZoom", JInt MIN_ZOOM);
               ("maxZoom", JInt MAX_ZOOM);
               ("formats", JList [JStr "jpg"; JStr "png"]);
               ("aliases", JList [JStr "mola"; JStr "MOLA Elevation";
                                  JStr "Mars_MGS_MOLA"]);
               ("description", JStr "Topographic elevation data");
               ("url_example", JStr "/mars/tile?layer=mola&z=4&y=5&x=7") ] ]) ].

End WithMaxZoom.

(** The module as it loads when the environment variable is [env]. *)
Definition MAX_ZOOM (env : option Z) : Z := max_zoom_of_env env.

End mars_service.

(** ** mercury_service.py *)

Module mercury_service.

Definition MAX_ZOOM : Z := 7.

Definition unsupported_format (format : string) : response :=
  HTTPException 406 (JDict
    [ ("error", JStr "Unsupported format");
      ("message", JStr ("Only 'jpg' format is supported. Requested format: '"
                         ++ format ++ "'"));
      ("supported_formats", JList [JStr "jpg"]);
      ("provided", JStr format) ]).

Definition zoom_out_of_range (z : Z) : response :=
  HTTPException 400 (JDict
    [ ("error", JStr "Zoom level out of range");
      ("message", JStr ("Zoom level must be between 0 and " ++ Py.str MAX_ZOOM));
      ("provided", JInt z);
      ("valid_range", JStr ("0-" ++ Py.str MAX_ZOOM));
      ("suggestion",
       JStr ("Use a zoom level between 0 and " ++ Py.str MAX_ZOOM)) ]).

(** The f-string [{max_tile_col}×{max_tile_row}]. *)
Definition tile_matrix (max_tile_col max_tile_row : Z) : string :=
  Py.str max_tile_col ++ "×" ++ Py.str max_tile_row.

Definition x_out_of_bounds (z x max_tile_col max_tile_row : Z) : response :=
  HTTPException 400 (JDict
    [ ("error", JStr "X coordinate out of bounds");
      ("message", JStr ("For zoom level " ++ Py.str z
                         ++ ", x must be between 0 and "
                         ++ Py.str (max_tile_col - 1)));
      ("provided", JInt x);
      ("valid_range", JStr ("0-" ++ Py.str (max_tile_col - 1)));
      ("zoom_level", JInt z);
      ("tile_matrix", JStr (tile_matrix max_tile_col max_tile_row)) ]).

Definition y_out_of_bounds (z y max_tile_col max_tile_row : Z) : response :=
  HTTPException 400 (JDict
    [ ("error", JStr "Y coordinate out of bounds");
      ("message", JStr ("For zoom level " ++ Py.str z
                         ++ ", y must be between 0 and "
                         ++ Py.str (max_tile_row - 1)));
      ("provided", JInt y);
      ("valid_range", JStr ("0-" ++ Py.str (max_tile_row - 1)));
      ("zoom_level", JInt z);
      ("tile_matrix", JStr (tile_matrix max_tile_col max_tile_row)) ]).

Definition tile_url (layer version style TileMatrixSet : string) (z y x : Z)
    (format : string) : string :=
  config.TREK_MERCURY_BASE_URL ++ "/" ++ layer ++ "/" ++ version ++ "/"
  ++ style ++ "/" ++ TileMatrixSet ++ "/" ++ Py.str z ++ "/" ++ Py.str y
  ++ "/" ++ Py.str x ++ "." ++ format.

Definition tile_not_found (url layer version : string) (z y x : Z)
    (style TileMatrixSet format : string) : response :=
  HTTPException 404 (JDict
    [ ("error", JStr "Tile not found");
      ("message", JStr "The requested Mercury tile does not exist. This may be due to invalid coordinates, layer name, or the tile may not have data coverage.");
      ("requested_url", JStr url);
      ("parameters", JDict
         [ ("layer", JStr layer); ("version", JStr version); ("z", JInt z);
           ("y", JInt y); ("x", JInt x); ("style", JStr style);
           ("TileMatrixSet", JStr TileMatrixSet); ("format", JStr format) ]);
      ("suggestions", JList
         [ JStr "Verify tile coordinates are within bounds";
           JStr "Check if the layer name is correct";
           JStr "Try a different zoom level";
           JStr ("Valid zoom range: 0-" ++ Py.str MAX_ZOOM) ]) ]).

Definition upstream_service_error (url : string) (status_code : Z) : response :=
  HTTPException 502 (JDict
    [ ("error", JStr "Upstream service error");
      ("message", JStr ("NASA Trek returned status code " ++ Py.str status_code));
      ("requested_url", JStr url);
      ("status_code", JInt status_code) ]).

Definition request_timeout (url : string) : response :=
  HTTPException 502 (JDict
    [ ("error", JStr "Request timeout");
      ("message", JStr "Request to NASA Trek timed out after 15.0 seconds");
      ("requested_url", JStr url) ]).

Definition network_error (url msg : string) : response :=
  HTTPException 502 (JDict
    [ ("error", JStr "Network error");
      ("message", JStr ("Failed to connect to NASA Trek: " ++ msg));
      ("requested_url", JStr url) ]).

Definition internal_server_error (type_name : string) : response :=
  HTTPException 500 (JDict
    [ ("error", JStr "Internal server error");
      ("message", JStr "An unexpected error occurred while processing your request");
      ("error_type", JStr type_name) ]).

(** The [headers] of the tile response. *)
Definition tile_headers (layer : string) (z y x : Z) (format : string)
    (max_tile_col max_tile_row : Z) : list (string * string) :=
    [ ("Cache-Control",
       "public, max-age=" ++ Py.str config.MERCURY_CACHE_MAX_AGE);
      ("X-Tile-Source", "NASA Trek Mercury WMTS");
      ("X-Tile-Layer", layer);
      ("X-Tile-Coordinates",
       "z=" ++ Py.str z ++ ", y=" ++ Py.str y ++ ", x=" ++ Py.str x);
      ("X-Tile-Format", format);
      ("X-Tile-Matrix", tile_matrix max_tile_col max_tile_row);
      ("X-Dataset", "MESSENGER MDIS Enhanced Color Mosaic");
      ("X-Resolution", "665m per pixel");
      ("X-Coordinate-System", "IAU2000::19900") ].

Definition tile_response (content layer : string) (z y x : Z)
    (format : string) (max_tile_col max_tile_row : Z) : option response :=
  new_Response content (config.content_type format)
    (tile_headers layer z y x format max_tile_col max_tile_row).

(** Steps 5 and 6: the [try] block around the GET and its [except]
    clauses, in their order.  [Response(...)] is built inside the [try],
    so its exception reaches the last clause, [except Exception]. *)
Definition classify (url layer version : string) (z y x : Z)
    (style TileMatrixSet format : string) (max_tile_col max_tile_row : Z)
    (r : http_result) : response :=
  match r with
  | Responded status_code content =>
      if status_code =? 404
      then tile_not_found url layer version z y x style TileMatrixSet format
      else if negb (status_code =? 200)
      then upstream_service_error url status_code
      else match tile_response content layer z y x format
                   max_tile_col max_tile_row with
           | Some built => built
           | None => internal_server_error "UnicodeEncodeError"
           end
  | RaisedTimeout _ => request_timeout url
  | RaisedRequestError msg => network_error url msg
  | RaisedOther t => internal_server_error t
  end.

Definition get_mercury_tile (z x y : Z)
    (layer version style TileMatrixSet format : string) : prog :=
  handle (
    (* 1. VALIDATE FORMAT (406) *)
    raise_if (negb (String.eqb (Py.lower format) "jpg"))
             (unsupported_format format) ;;
    (* 2. VALIDATE ZOOM LEVEL (400) *)
    raise_if ((z <? 0) || (MAX_ZOOM <? z)) (zoom_out_of_range z) ;;
    (* 3. VALIDATE TILE COORDINATES (400); z is in 0..7 here *)
    let max_tile_col := 2 ^ (z + 1) in
    let max_tile_row := 2 ^ z in
    raise_if ((x <? 0) || (max_tile_col <=? x))
             (x_out_of_bounds z x max_tile_col max_tile_row) ;;
    raise_if ((y <? 0) || (max_tile_row <=? y))
             (y_out_of_bounds z y max_tile_col max_tile_row) ;;
    (* 4. CONSTRUCT WMTS URL *)
    let url := tile_url layer version style TileMatrixSet z y x format in
    (* 5. FETCH TILE FROM NASA TREK *)
    Ok (HttpGet url config.MERCURY_REQUEST_TIMEOUT
          (λ r, Ret (classify url layer version z y x style TileMatrixSet
                       format max_tile_col max_tile_row r)))).

(** The constraints the route declares: [ge=0] on [z], [x] and [y]. *)
Definition query_ok (z x y : Z) : bool :=
  (0 <=? z) && (0 <=? x) && (0 <=? y).

(** GET /mercury/tile *)
Definition tile_route (z x y : Z)
    (layer version style TileMatrixSet format : string) : prog :=
  if query_ok z x y
  then get_mercury_tile z x y layer version style TileMatrixSet format
  else Ret RequestValidationError.

(** [tile_url_template()]; the doubled braces of the f-string are single
    braces of the result. *)
Definition tile_url_template : string :=
  config.TREK_MERCURY_BASE_URL ++ "/"
  ++ "{layer}/{version}/{style}/{TileMatrixSet}/{z}/{y}/{x}.{format}".

(** One entry of [tile_matrices]; the scale denominators, written 2.79e8
    and so on in the source, are whole numbers. *)
Definition tile_matrix_entry (zoom width height scale : Z) : json :=
  JDict [ ("zoom", JInt zoom); ("matrix_width", JInt width);
          ("matrix_height", JInt height);
          ("scale_denominator", JNum (inject_Z scale)) ].

Definition tile_matrices : list json :=
  [ tile_matrix_entry 0 2 1 279000000;
    tile_matrix_entry 1 4 2 140000000;
    tile_matrix_entry 2 8 4 69800000;
    tile_matrix_entry 3 16 8 34900000;
    tile_matrix_entry 4 32 16 17500000;
    tile_matrix_entry 5 64 32 8730000;
    tile_matrix_entry 6 128 64 4360000;
    tile_matrix_entry 7 256 128 2180000 ].

(** GET /mercury/capabilities; the coordinates of the bounding boxes are
    whole numbers of degrees. *)
Definition get_mercury_capabilities : json :=
  let corner (a b : Z) := JList [JNum (inject_Z a); JNum (inject_Z b)] in
  JDict
    [ ("service", JStr "WMTS");
      ("version", JStr "1.0.0");
      ("layer", JDict
         [ ("identifier", JStr config.MERCURY_DEFAULT_LAYER);
           ("title", JStr "Mercury MESSENGER MDIS Basemap Enhanced Color Mosaic Global 665m");
           ("bounding_box", JDict
              [ ("crs", JStr "urn:ogc:def:crs:IAU2000::19900");
                ("lower_corner", corner (-180) (-90));
                ("upper_corner", corner 180 90) ]);
           ("wgs84_bounding_box", JDict
              [ ("crs", JStr "urn:ogc:def:crs:OGC:2:84");
                ("lower_corner", corner (-180) (-90));
                ("upper_corner", corner 180 90) ]) ]);
      ("tile_matrix_set", JDict
         [ ("identifier", JStr "default028mm");
           ("title", JStr "default");
           ("description", JStr "Scale values based on OGC specification (0.28mm per pixel)");
           ("supported_crs", JStr "urn:ogc:def:crs:IAU2000::19900");
           ("tile_matrices", JList tile_matrices);
           ("tile_size", JStr "256×256 pixels");
           ("top_left_corner", corner (-180) 90) ]);
      ("formats", JList [JStr "image/jpeg"]);
      ("styles", JList [JStr "default"]);
      ("resource_url_template", JStr tile_url_template);
      ("max_zoom", JInt MAX_ZOOM);
      ("capabilities_xml", JStr "https://trek.nasa.gov/tiles/Mercury/EQ/Mercury_MESSENGER_MDIS_Basemap_EnhancedColor_Mosaic_Global_665m/1.0.0/WMTSCapabilities.xml") ].

End mercury_service.

(** ** gibs_service.py *)

Module gibs_service.

Import config.

Definition invalid_date (utcnow : Datetime.datetime) (date : string) : response :=
  HTTPException 400 (JDict
    [ ("error", JStr "Invalid date");
      ("message", JStr ("Date cannot be in the future. Current UTC date: "
                         ++ Datetime.strftime_Ymd utcnow));
      ("provided", JStr date) ]).

Definition invalid_date_format (date : string) : response :=
  HTTPException 400 (JDict
    [ ("error", JStr "Invalid date format");
      ("message", JStr "Date must be in YYYY-MM-DD format");
      ("provided", JStr date);
      ("example", JStr "2025-10-03") ]).

(** STEP 1.  [utcnow] is what [datetime.utcnow()] returns; the second read
    of the clock, for the message, is taken to give the same value. *)
Definition validate_date (utcnow : Datetime.datetime) (date : string) : exc unit :=
  match Datetime.strptime_Ymd date with
  | Some parsed_date =>
      raise_if (Datetime.gt parsed_date utcnow) (invalid_date utcnow date)
  | None => Raise (invalid_date_format date)
  end.

(** The detail's [message] and [valid_range], which format
    [max_tiles - 1], are left out. *)
Definition coordinates_out_of_bounds (z x y : Z) : response :=
  HTTPException 400 (JDict
    [ ("error", JStr "Tile coordinates out of bounds");
      ("provided", JDict [("x", JInt x); ("y", JInt y); ("z", JInt z)]) ]).

(** STEP 2 *)
Definition validate_coordinates (z x y : Z) : exc unit :=
  let max_tiles := Py.pow2 z in
  raise_if (Py.ge_num x max_tiles || Py.ge_num y max_tiles
            || (x <? 0) || (y <? 0))
           (coordinates_out_of_bounds z x y).

Definition tile_url (layer date tile_matrix_set : string) (z y x : Z)
    (format : string) : string :=
  GIBS_BASE_URL ++ "/" ++ layer ++ "/default/" ++ date ++ "/"
  ++ tile_matrix_set ++ "/" ++ Py.str z ++ "/" ++ Py.str y ++ "/"
  ++ Py.str x ++ "." ++ format.

Definition tile_not_found (url layer date : string) (z y x : Z)
    (format : string) : response :=
  HTTPException 404 (JDict
    [ ("error", JStr "Tile not found");
      ("message", JStr "The requested tile does not exist. Check layer name, date, or coordinates.");
      ("requested_url", JStr url);
      ("parameters", JDict
         [ ("layer", JStr layer); ("date", JStr date); ("z", JInt z);
           ("y", JInt y); ("x", JInt x); ("format", JStr format) ]) ]).

Definition gibs_service_error (url : string) (status_code : Z) : response :=
  HTTPException status_code (JDict
    [ ("error", JStr "GIBS service error");
      ("message", JStr ("NASA GIBS returned HTTP " ++ Py.str status_code));
      ("requested_url", JStr url) ]).

Definition network_error (url msg : string) : response :=
  HTTPException 502 (JDict
    [ ("error", JStr "Network error");
      ("message", JStr ("Failed to connect to NASA GIBS: " ++ msg));
      ("requested_url", JStr url) ]).

(** The [headers] of the tile response. *)
Definition tile_headers (layer date : string) (z : Z)
  : list (string * string) :=
    [ ("Cache-Control", "public, max-age=" ++ Py.str EARTH_CACHE_MAX_AGE);
      ("X-Tile-Source", "NASA-GIBS");
      ("X-Tile-Layer", layer);
      ("X-Tile-Date", date);
      ("X-Zoom-Level", Py.str z) ].

Definition tile_response (content layer date : string) (z : Z)
    (format : string) : option response :=
  new_Response content (content_type format) (tile_headers layer date z).

(** STEP 4 and STEP 5.  An exception of [Response(...)] is caught by
    neither [except] clause and leaves the handler. *)
Definition classify (url layer date : string) (z y x : Z) (format : string)
    (r : http_result) : response :=
  match r with
  | Responded status_code content =>
      if status_code =? 404 then tile_not_found url layer date z y x format
      else if is_success status_code
      then match tile_response content layer date z format with
           | Some built => built
           | None => Unhandled "UnicodeEncodeError"
           end
      else gibs_service_error url status_code
  | RaisedTimeout msg => network_error url msg
  | RaisedRequestError msg => network_error url msg
  | RaisedOther t => Unhandled t
  end.

Definition get_earth_tile (utcnow : Datetime.datetime)
    (layer date : string) (z y x : Z) (tile_matrix_set format : string) : prog :=
  handle (
    validate_date utcnow date ;;
    validate_coordinates z x y ;;
    let url := tile_url layer date tile_matrix_set z y x format in
    Ok (HttpGet url EARTH_REQUEST_TIMEOUT
          (λ r, Ret (classify url layer date z y x format r)))).

(** [regex=r"^\d{4}-\d{2}-\d{2}$"] on [date], read on ASCII text: outside
    ASCII [\d] also matches the decimal digits of other scripts. *)
Definition date_pattern (s : string) : bool :=
  match s with
  | String y1 (String y2 (String y3 (String y4 (String h1
      (String m1 (String m2 (String h2 (String d1 (String d2 EmptyString))))))))) =>
      forallb Datetime.is_digit [y1; y2; y3; y4; m1; m2; d1; d2]
      && Ascii.eqb h1 "-" && Ascii.eqb h2 "-"
  | _ => false
  end.

(** The constraints the route declares: the pattern of [date], [ge=0] and
    [le=EARTH_MAX_ZOOM] on [z], [ge=0] on [y] and [x],
    [regex="^(jpg|jpeg|png|png8)$"] on [format]. *)
Definition query_ok (date : string) (z y x : Z) (format : string) : bool :=
  date_pattern date
  && (0 <=? z) && (z <=? EARTH_MAX_ZOOM) && (0 <=? y) && (0 <=? x)
  && bool_decide (format ∈ ["jpg"; "jpeg"; "png"; "png8"]).

(** GET /earth/tile *)
Definition tile_route (utcnow : Datetime.datetime)
    (layer date : string) (z y x : Z) (tile_matrix_set format : string) : prog :=
  if query_ok date z y x format
  then get_earth_tile utcnow layer date z y x tile_matrix_set format
  else Ret RequestValidationError.

End gibs_service.

(** ** moon_service.py *)

Module moon_service.

Import config.

(** The detail's [message] and [valid_range], which format
    [max_tiles - 1], are left out. *)
Definition coordinates_out_of_bounds (z x y : Z) : response :=
  HTTPException 400 (JDict
    [ ("error", JStr "Tile coordinates out of bounds");
      ("provided", JDict [("x", JInt x); ("y", JInt y); ("z", JInt z)]) ]).

(** STEP 1 *)
Definition validate_coordinates (z x y : Z) : exc unit :=
  let max_tiles := Py.pow2 z in
  raise_if (Py.ge_num x max_tiles || Py.ge_num y max_tiles
            || (x <? 0) || (y <? 0))
           (coordinates_out_of_bounds z x y).

Definition tile_url (layer version style tile_matrix_set : string)
    (z y x : Z) (format : string) : string :=
  TREK_MOON_BASE_URL ++ "/" ++ layer ++ "/" ++ version ++ "/" ++ style
  ++ "/" ++ tile_matrix_set ++ "/" ++ Py.str z ++ "/" ++ Py.str y ++ "/"
  ++ Py.str x ++ "." ++ format.

Definition tile_not_found (url layer : string) (z y x : Z)
    (format : string) : response :=
  HTTPException 404 (JDict
    [ ("error", JStr "Tile not found");
      ("message", JStr "The requested tile does not exist. Check layer name or coordinates.");
      ("requested_url", JStr url);
      ("parameters", JDict
         [ ("layer", JStr layer); ("z", JInt z); ("y", JInt y);
           ("x", JInt x); ("format", JStr format) ]) ]).

Definition trek_service_error (url : string) (status_code : Z) : response :=
  HTTPException status_code (JDict
    [ ("error", JStr "Trek service error");
      ("message", JStr ("NASA Trek returned HTTP " ++ Py.str status_code));
      ("requested_url", JStr url) ]).

Definition network_error (url msg : string) : response :=
  HTTPException 502 (JDict
    [ ("error", JStr "Network error");
      ("message", JStr ("Failed to connect to NASA Trek: " ++ msg));
      ("requested_url", JStr url) ]).

(** The [headers] of the tile response. *)
Definition tile_headers (layer : string) (z : Z) : list (string * string) :=
    [ ("Cache-Control", "public, max-age=" ++ Py.str MOON_CACHE_MAX_AGE);
      ("X-Tile-Source", "NASA-Trek-Moon");
      ("X-Tile-Layer", layer);
      ("X-Zoom-Level", Py.str z) ].

Definition tile_response (content layer : string) (z : Z)
    (format : string) : option response :=
  new_Response content (content_type format) (tile_headers layer z).

(** STEP 3 and STEP 4.  An exception of [Response(...)] is caught by
    neither [except] clause and leaves the handler. *)
Definition classify (url layer : string) (z y x : Z) (format : string)
    (r : http_result) : response :=
  match r with
  | Responded status_code content =>
      if status_code =? 404 then tile_not_found url layer z y x format
      else if is_success status_code
      then match tile_response content layer z format with
           | Some built => built
           | None => Unhandled "UnicodeEncodeError"
           end
      else trek_service_error url status_code
  | RaisedTimeout msg => network_error url msg
  | RaisedRequestError msg => network_error url msg
  | RaisedOther t => Unhandled t
  end.

Definition get_moon_tile (z y x : Z)
    (layer version style tile_matrix_set format : string) : prog :=
  handle (
    validate_coordinates z x y ;;
    let url := tile_url layer version style tile_matrix_set z y x format in
    Ok (HttpGet url MOON_REQUEST_TIMEOUT
          (λ r, Ret (classify url layer z y x format r)))).

(** The constraints the route declares: [ge=0] and [le=MOON_MAX_ZOOM] on
    [z], [ge=0] on [y] and [x], [regex="^(jpg|jpeg|png|tif|tiff)$"] on
    [format]. *)
Definition query_ok (z y x : Z) (format : string) : bool :=
  (0 <=? z) && (z <=? MOON_MAX_ZOOM) && (0 <=? y) && (0 <=? x)
  && bool_decide (format ∈ ["jpg"; "jpeg"; "png"; "tif"; "tiff"]).

(** GET /moon/tile *)
Definition tile_route (z y x : Z)
    (layer version style tile_matrix_set format : string) : prog :=
  if query_ok z y x format
  then get_moon_tile z y x layer version style tile_matrix_set format
  else Ret RequestValidationError.

End moon_service.

(** ** main.py: the four routers mounted on one application *)

Inductive body : Type := Earth | Moon | Mars | Mercury.

(** The parameters of a tile request; a body reads the ones its route
    declares. *)
Record TileRequest : Type := mk_request
  { zoom : Z; row : Z; col : Z;
    layer : string; date : string; version : string; style : string;
    tileMatrixSet : string; format : string }.

(** What a request depends on besides its parameters: the clock read by
    the Earth handler and the value [mars_service.MAX_ZOOM] got from the
    environment when the module was loaded. *)
Record Env : Type := mk_env
  { utcnow : Datetime.datetime; mars_max_zoom : Z }.

(** The handler function of a body, called with the request's values. *)
Definition handler (e : Env) (b : body) (q : TileRequest) : prog :=
  match b with
  | Earth =>
      gibs_service.get_earth_tile (utcnow e) (layer q) (date q)
        (zoom q) (row q) (col q) (tileMatrixSet q) (format q)
  | Moon =>
      moon_service.get_moon_tile (zoom q) (row q) (col q)
        (layer q) (version q) (style q) (tileMatrixSet q) (format q)
  | Mars =>
      mars_service.get_mars_tile (mars_max_zoom e) (zoom q) (row q) (col q)
        (layer q) (version q) (style q) (tileMatrixSet q) (format q)
  | Mercury =>
      mercury_service.get_mercury_tile (zoom q) (col q) (row q)
        (layer q) (version q) (style q) (tileMatrixSet q) (format q)
  end.

(** The route of a body as the application serves it: the declared
    parameter constraints, then the handler. *)
Definition tile_route (e : Env) (b : body) (q : TileRequest) : prog :=
  match b with
  | Earth =>
      gibs_service.tile_route (utcnow e) (layer q) (date q)
        (zoom q) (row q) (col q) (tileMatrixSet q) (format q)
  | Moon =>
      moon_service.tile_route (zoom q) (row q) (col q)
        (layer q) (version q) (style q) (tileMatrixSet q) (format q)
  | Mars =>
      mars_service.tile_route (mars_max_zoom e) (zoom q) (row q) (col q)
        (layer q) (version q) (style q) (tileMatrixSet q) (format q)
  | Mercury =>
      mercury_service.tile_route (zoom q) (col q) (row q)
        (layer q) (version q) (style q) (tileMatrixSet q) (format q)
  end.

(** GET /proxy/earth/tile, the route main.py adds for the split-screen
    view.  Its parameters carry no constraint, so the route is the
    handler.  Every [httpx.HTTPError], the [HTTPStatusError] of
    [raise_for_status] included, is answered 502 with a text as detail;
    an exception of [Response(...)] is no [httpx.HTTPError] and leaves the
    handler. *)
Section Proxy.

(** [str(e)] for the [HTTPStatusError] that [raise_for_status] raises,
    taken as a function of the status and the URL. *)
Variable status_error_text : Z → string → string.

Definition proxy_tile_url (z x y : Z) (date layer format : string) : string :=
  "https://gibs.earthdata.nasa.gov/wmts/epsg3857/best" ++ "/" ++ layer
  ++ "/default/" ++ date ++ "/GoogleMapsCompatible_Level9/" ++ Py.str z
  ++ "/" ++ Py.str y ++ "/" ++ Py.str x ++ "." ++ format.

Definition proxy_upstream_error (msg : string) : response :=
  HTTPException 502 (JStr ("Upstream error: " ++ msg)).

Definition proxy_headers : list (string * string) :=
  [ ("Cache-Control", "public, max-age=86400");
    ("Access-Control-Allow-Origin", "*") ].

Definition proxy_classify (url format : string) (r : http_result) : response :=
  match r with
  | Responded status_code content =>
      if is_success status_code
      then match new_Response content ("image/" ++ format) proxy_headers with
           | Some built => built
           | None => Unhandled "UnicodeEncodeError"
           end
      else proxy_upstream_error (status_error_text status_code url)
  | RaisedTimeout msg => proxy_upstream_error msg
  | RaisedRequestError msg => proxy_upstream_error msg
  | RaisedOther t => Unhandled t
  end.

Definition proxy_earth_tile (z x y : Z) (date layer format : string) : prog :=
  let url := proxy_tile_url z x y date layer format in
  HttpGet url 30 (λ r, Ret (proxy_classify url format r)).

End Proxy.

(** Whether a program starts with the upstream request. *)
Definition fetches (p : prog) : bool :=
  match p with
  | HttpGet _ _ _ => true
  | Ret _ => false
  end.

(** The URL a program requests first, if any. *)
Definition requested_url (p : prog) : option string :=
  match p with
  | HttpGet url _ _ => Some url
  | Ret _ => None
  end.

(** The response of a handler once the upstream has answered [r]. *)
Definition outcome (p : prog) (r : http_result) : response :=
  (run (λ _, r) p).2.

(** ** The vocabulary of the specification *)

Module Spec.

(** The error taxonomy of the specification. *)
Inductive kind : Type :=
| InvalidDate | CoordinatesOutOfBounds | ZoomOutOfRange | UnsupportedLayer
| UnsupportedFormat | TileNotFound | UpstreamError | NetworkError | Timeout
| InternalError.

(** The kind an [error] string of the code stands for. *)
Definition kind_of_error (s : string) : option kind :=
  if bool_decide (s ∈ ["Invalid date"; "Invalid date format"])
  then Some InvalidDate
  else if bool_decide (s ∈ ["Tile coordinates out of bounds";
                             "coordinates_out_of_bounds";
                             "X coordinate out of bounds";
                             "Y coordinate out of bounds"])
  then Some CoordinatesOutOfBounds
  else if bool_decide (s ∈ ["invalid_zoom"; "Zoom level out of range"])
  then Some ZoomOutOfRange
  else if bool_decide (s = "unsupported_layer") then Some UnsupportedLayer
  else if bool_decide (s = "Unsupported format") then Some UnsupportedFormat
  else if bool_decide (s ∈ ["Tile not found"; "tile_not_found"])
  then Some TileNotFound
  else if bool_decide (s ∈ ["GIBS service error"; "Trek service error";
                             "trek_service_error"; "Upstream service error"])
  then Some UpstreamError
  else if bool_decide (s ∈ ["Network error"; "network_error"])
  then Some NetworkError
  else if bool_decide (s = "Request timeout") then Some Timeout
  else if bool_decide (s = "Internal server error") then Some InternalError
  else None.

Definition kind_of (r : response) : option kind :=
  match error_of r with
  | Some (JStr s) => kind_of_error s
  | _ => None
  end.

(** A response fails with kind [k] and HTTP status [sc]. *)
Definition fails_with (sc : Z) (k : kind) (r : response) : Prop :=
  status_of r = sc ∧ kind_of r = Some k.

Definition is_validation_kind (k : kind) : bool :=
  match k with
  | InvalidDate | CoordinatesOutOfBounds | ZoomOutOfRange
  | UnsupportedLayer | UnsupportedFormat => true
  | _ => false
  end.

(** A response that reports a validation failure of the handler. *)
Definition validation_failure (r : response) : Prop :=
  ∃ k, kind_of r = Some k ∧ is_validation_kind k = true.

(** The profile constants of the specification. *)
Definition minZoom (b : body) : Z := 0.

Definition maxZoom (e : Env) (b : body) : Z :=
  match b with
  | Earth => 9
  | Moon => 10
  | Mars => mars_max_zoom e
  | Mercury => 7
  end.

(** [tileMatrixShape(z) = (maxCols, maxRows)] *)
Definition tileMatrixShape (b : body) (z : Z) : Z * Z :=
  match b with
  | Mercury => (2 ^ (z + 1), 2 ^ z)
  | _ => (2 ^ z, 2 ^ z)
  end.

Definition maxCols (b : body) (z : Z) : Z := (tileMatrixShape b z).1.
Definition maxRows (b : body) (z : Z) : Z := (tileMatrixShape b z).2.

Definition zoom_in_range (e : Env) (b : body) (q : TileRequest) : Prop :=
  minZoom b ≤ zoom q ≤ maxZoom e b.

Definition in_matrix (b : body) (q : TileRequest) : Prop :=
  0 ≤ row q < maxRows b (zoom q) ∧ 0 ≤ col q < maxCols b (zoom q).

(** A real calendar date written YYYY-MM-DD: four, two and two digits
    between hyphens, naming a day of the calendar. *)
Definition iso_date (s : string) : option (Z * Z * Z) :=
  match s with
  | String y1 (String y2 (String y3 (String y4 (String h1
      (String m1 (String m2 (String h2 (String d1 (String d2 EmptyString))))))))) =>
      let y := 1000 * Datetime.digit_val y1 + 100 * Datetime.digit_val y2
               + 10 * Datetime.digit_val y3 + Datetime.digit_val y4 in
      let m := 10 * Datetime.digit_val m1 + Datetime.digit_val m2 in
      let d := 10 * Datetime.digit_val d1 + Datetime.digit_val d2 in
      if forallb Datetime.is_digit [y1; y2; y3; y4; m1; m2; d1; d2]
         && Ascii.eqb h1 "-" && Ascii.eqb h2 "-" && Datetime.valid_date y m d
      then Some (y, m, d) else None
  | _ => None
  end.

(** [d] is strictly after the calendar date of [now]. *)
Definition after_today (d : Z * Z * Z) (now : Datetime.datetime) : bool :=
  Datetime.lex_gt [d.1.1; d.1.2; d.2] (Datetime.date_of now).

(** The validations of a request other than those of its zoom, row and
    column: the date for Earth, the layer for Mars, the format. *)
Definition others_pass (e : Env) (b : body) (q : TileRequest) : Prop :=
  match b with
  | Earth =>
      (∃ d, iso_date (date q) = Some d ∧ after_today d (utcnow e) = false)
      ∧ format q ∈ ["jpg"; "jpeg"; "png"; "png8"]
  | Moon => format q ∈ ["jpg"; "jpeg"; "png"; "tif"; "tiff"]
  | Mars =>
      is_Some (mars_service.SUPPORTED_LAYERS !! Py.lower (Py.strip (layer q)))
      ∧ format q ∈ ["jpg"; "jpeg"; "png"; "tif"; "tiff"]
  | Mercury => Py.lower (format q) = "jpg"
  end.

(** Every validation of the specification passes. *)
Definition valid (e : Env) (b : body) (q : TileRequest) : Prop :=
  zoom_in_range e b q ∧ in_matrix b q ∧ others_pass e b q.

End Spec.

(** ** Definitions used to state the properties *)

(** The keys of [SUPPORTED_LAYERS], by the layer they stand for. *)
Definition viking_keys : list string :=
  [ "mars_viking_mdim21_clrmosaic_global_232m"; "viking";
    "viking color mosaic"; "mars_viking" ].
Definition mola_keys : list string :=
  [ "mars_mgs_mola_megr_global_463m"; "mola"; "mola elevation";
    "mars_mgs_mola" ].


(** The ten digits. *)
Definition digits : list ascii :=
  ["0"; "1"; "2"; "3"; "4"; "5"; "6"; "7"; "8"; "9"]%char.

(** A clock and a loaded configuration to run examples with: 4 October
    2025, 11:02:36 UTC, and Mars's default maximum zoom. *)
Definition sample_env : Env :=
  mk_env (Datetime.mk_datetime 2025 10 4 11 2 36 0)
         (mars_service.MAX_ZOOM None).

(** A request with every optional parameter at the default of Earth. *)
Definition earth_request (z y x : Z) (date : string) : TileRequest :=
  mk_request z y x config.EARTH_DEFAULT_LAYER date "1.0.0" "default"
    config.EARTH_DEFAULT_TMS config.EARTH_DEFAULT_FORMAT.

(** A request with every optional parameter at the default of Mercury. *)
Definition mercury_request (z y x : Z) (format : string) : TileRequest :=
  mk_request z y x config.MERCURY_DEFAULT_LAYER "" config.MERCURY_DEFAULT_VERSION
    config.MERCURY_DEFAULT_STYLE config.MERCURY_DEFAULT_TMS format.

(** The statement on coordinate validation, read on [run], which is
    either the handlers or the routes: validation succeeds exactly in the
    bounds of the body, and a row or column outside the matrix, at a zoom
    in range, fails with CoordinatesOutOfBounds and status 400. *)
Definition coordinate_claim (run : Env → body → TileRequest → prog) : Prop :=
  ∀ e b q,
    Datetime.wellformed (utcnow e) = true → Spec.others_pass e b q →
    (fetches (run e b q) = true ↔ Spec.in_matrix b q ∧ Spec.zoom_in_range e b q)
    ∧ (Spec.zoom_in_range e b q → ¬ Spec.in_matrix b q →
       ∃ r, run e b q = Ret r ∧ Spec.fails_with 400 Spec.CoordinatesOutOfBounds r).

(** The statement on zoom validation, read on [run]: a zoom outside the
    bounds of the body fails with ZoomOutOfRange and status 400. *)
Definition zoom_claim (run : Env → body → TileRequest → prog) : Prop :=
  ∀ e b q,
    Datetime.wellformed (utcnow e) = true → Spec.others_pass e b q →
    ¬ Spec.zoom_in_range e b q →
    ∃ r, run e b q = Ret r ∧ Spec.fails_with 400 Spec.ZoomOutOfRange r.

(** The declared parameter constraints of the route of a body. *)
Definition declared_ok (b : body) (q : TileRequest) : bool :=
  match b with
  | Earth => gibs_service.query_ok (date q) (zoom q) (row q) (col q) (format q)
  | Moon => moon_service.query_ok (zoom q) (row q) (col q) (format q)
  | Mars => mars_service.query_ok (zoom q) (row q) (col q) (format q)
  | Mercury => mercury_service.query_ok (zoom q) (col q) (row q)
  end.




(** The statuses of a request refused before the upstream is asked. *)
Definition refusal_status (r : response) : Prop :=
  status_of r = 400 ∨ status_of r = 406 ∨ status_of r = 422.

(** The statement on the classification of the upstream's answer, for a
    valid request: 404 gives TileNotFound with status 404; any 2xx gives
    the bytes with the content type of the format; any other status gives
    UpstreamError with the same status or 502; a connection failure gives
    NetworkError with 502 and a timeout gives Timeout with 502. *)
Definition classification_claim : Prop :=
  ∀ e b q res,
    Datetime.wellformed (utcnow e) = true → Spec.valid e b q →
    let o := outcome (handler e b q) res in
    match res with
    | Responded sc content =>
        if sc =? 404 then Spec.fails_with 404 Spec.TileNotFound o
        else if is_success sc
        then ∃ h, o = Response content (config.content_type (format q)) h
        else Spec.kind_of o = Some Spec.UpstreamError
             ∧ (status_of o = sc ∨ status_of o = 502)
    | RaisedRequestError _ => Spec.fails_with 502 Spec.NetworkError o
    | RaisedTimeout _ => Spec.fails_with 502 Spec.Timeout o
    | RaisedOther _ => True
    end.

(** The layer that goes into the URL: the resolved one for Mars, the
    caller's for the other bodies. *)
Definition canonical_layer (e : Env) (b : body) (q : TileRequest) : string :=
  match b with
  | Mars =>
      match mars_service.normalize_layer (mars_max_zoom e) (layer q) with
      | Ok c => c
      | Raise _ => layer q
      end
  | _ => layer q
  end.

(** The URL templates of the specification, segment by segment: GIBS for
    Earth, Trek for the other bodies. *)
Definition url_template (b : body) (canonical : string) (q : TileRequest)
  : string :=
  match b with
  | Earth =>
      String.concat "/"
        [ config.GIBS_BASE_URL; canonical; "default"; date q; tileMatrixSet q;
          Py.str (zoom q); Py.str (row q);
          Py.str (col q) ++ "." ++ format q ]
  | Moon =>
      String.concat "/"
        [ config.TREK_MOON_BASE_URL; canonical; version q; style q;
          tileMatrixSet q; Py.str (zoom q); Py.str (row q);
          Py.str (col q) ++ "." ++ format q ]
  | Mars =>
      String.concat "/"
        [ mars_service.TREK_MARS_BASE_URL; canonical; version q; style q;
          tileMatrixSet q; Py.str (zoom q); Py.str (row q);
          Py.str (col q) ++ "." ++ format q ]
  | Mercury =>
      String.concat "/"
        [ config.TREK_MERCURY_BASE_URL; canonical; version q; style q;
          tileMatrixSet q; Py.str (zoom q); Py.str (row q);
          Py.str (col q) ++ "." ++ format q ]
  end.

(** A header of a response. *)
Definition header (k : string) (r : response) : option string :=
  match r with
  | Response _ _ headers =>
      snd <$> head (filter (λ kv, bool_decide (kv.1 = k)) headers)
  | _ => None
  end.

(** The text of a JSON string and the number of a JSON integer. *)
Definition as_str (j : json) : option string :=
  match j with JStr s => Some s | _ => None end.
Definition as_int (j : json) : option Z :=
  match j with JInt n => Some n | _ => None end.
Definition as_list (j : json) : list json :=
  match j with JList l => l | _ => [] end.

(** The names a layer is advertised under in a metadata entry: its [id]
    and its [aliases]. *)
Definition advertised_names (entry : json) : list string :=
  omap as_str (option_list (field "id" entry)
               ++ from_option as_list [] (field "aliases" entry))%list.

(** Fills a URL template: a brace-enclosed name is replaced by the value
    [env] gives it and left as it is when [env] has none; [name] holds
    the characters read since an opening brace, last first. *)
Fixpoint fill (env : list (string * string)) (name : option string)
    (tmpl : string) : string :=
  match tmpl with
  | EmptyString =>
      match name with
      | None => EmptyString
      | Some n => String "{" (String.rev n)
      end
  | String c rest =>
      match name with
      | None =>
          if Ascii.eqb c "{" then fill env (Some EmptyString) rest
          else String c (fill env None rest)
      | Some n =>
          if Ascii.eqb c "}"
          then match list_find (λ kv, kv.1 = String.rev n) env with
               | Some (_, (_, v)) => v ++ fill env None rest
               | None => String "{" (String.rev n) ++ String "}" (fill env None rest)
               end
          else fill env (Some (String c n)) rest
      end
  end.

(** The request with other layer, version, style and tile matrix set. *)
Definition with_names (q : TileRequest) (l v s t : string) : TileRequest :=
  mk_request (zoom q) (row q) (col q) l (date q) v s t (format q).

(** [a <= b] on naive datetimes. *)
Definition datetime_le (a b : Datetime.datetime) : Prop :=
  Datetime.gt a b = false.

(** The eight ways to write jpg in upper and lower case. *)
Definition jpg_spellings : list string :=
  ["jpg"; "jpG"; "jPg"; "jPG"; "Jpg"; "JpG"; "JPg"; "JPG"].

(** The media type of a response. *)
Definition media_type (r : response) : option string :=
  match r with
  | Response _ mt _ => Some mt
  | _ => None
  end.






(** * Properties *)

(** ** Arithmetic of the coordinate checks *)

Lemma pow2_nonneg z : 0 ≤ z → Py.pow2 z = inject_Z (2 ^ z).
Proof. intros Hz. unfold Py.pow2. destruct (Z.leb_spec 0 z); [done | lia]. Qed.

Lemma ge_num_inject n m : Py.ge_num n (inject_Z m) = (m <=? n).
Proof. unfold Py.ge_num, Qle_bool. simpl. by rewrite !Z.mul_1_r. Qed.

Lemma square_check z x y :
  0 ≤ z →
  Py.ge_num x (Py.pow2 z) || Py.ge_num y (Py.pow2 z) || (x <? 0) || (y <? 0) = false
  ↔ (0 ≤ y < 2 ^ z ∧ 0 ≤ x < 2 ^ z).
Proof.
  intros Hz. rewrite pow2_nonneg, !ge_num_inject by done.
  rewrite !orb_false_iff, !Z.leb_gt, !Z.ltb_ge. lia.
Qed.

Lemma handle_raise_if c e (m : exc prog) :
  handle (raise_if c e ;; m) = if c then Ret e else handle m.
Proof. by destruct c. Qed.

(** ** Case mapping and stripping *)





Section CaseMap.
(** A character map that keeps white space white and the rest not
    commutes with stripping. *)
Variable f : ascii → ascii.
Hypothesis f_space : ∀ c, Py.isspace (f c) = Py.isspace c.




End CaseMap.



Lemma lower_char_j a : Py.lower_char a = "j"%char → a = "j"%char ∨ a = "J"%char.
Proof. destruct a as [[] [] [] [] [] [] [] []]; intros H; try discriminate H; auto. Qed.

Lemma lower_char_p a : Py.lower_char a = "p"%char → a = "p"%char ∨ a = "P"%char.
Proof. destruct a as [[] [] [] [] [] [] [] []]; intros H; try discriminate H; auto. Qed.

Lemma lower_char_g a : Py.lower_char a = "g"%char → a = "g"%char ∨ a = "G"%char.
Proof. destruct a as [[] [] [] [] [] [] [] []]; intros H; try discriminate H; auto. Qed.

Lemma lower_jpg_spellings f : Py.lower f = "jpg" ↔ f ∈ jpg_spellings.
Proof.
  split.
  - destruct f as [|a [|b [|c [|]]]]; try discriminate. simpl.
    intros [= Ha Hb Hc].
    apply lower_char_j in Ha. apply lower_char_p in Hb. apply lower_char_g in Hc.
    unfold jpg_spellings. rewrite !elem_of_cons.
    destruct Ha as [-> | ->], Hb as [-> | ->], Hc as [-> | ->]; auto 10.
  - unfold jpg_spellings. rewrite !elem_of_cons, elem_of_nil.
    intros H; repeat destruct H as [-> | H]; done.
Qed.

(** ** The alias table of Mars *)

Lemma supported_layers_lookup k :
  mars_service.SUPPORTED_LAYERS !! k =
    if bool_decide (k ∈ viking_keys) then Some mars_service.VIKING
    else if bool_decide (k ∈ mola_keys) then Some mars_service.MOLA
    else None.
Proof.
  unfold mars_service.SUPPORTED_LAYERS.
  repeat (rewrite lookup_insert; case_decide; [subst k; vm_compute; reflexivity|]).
  rewrite lookup_empty.
  rewrite !bool_decide_eq_false_2; [done| |]; unfold viking_keys, mola_keys;
    rewrite ?elem_of_cons, elem_of_nil; intuition congruence.
Qed.

Lemma normalize_layer_key M layer :
  mars_service.normalize_layer M layer =
    let k := Py.lower (Py.strip layer) in
    if bool_decide (k ∈ viking_keys) then Ok mars_service.VIKING
    else if bool_decide (k ∈ mola_keys) then Ok mars_service.MOLA
    else Raise (mars_service.unsupported_layer M layer).
Proof.
  unfold mars_service.normalize_layer. rewrite supported_layers_lookup. simpl.
  by repeat case_bool_decide.
Qed.

Lemma normalize_layer_canonical M layer c :
  mars_service.normalize_layer M layer = Ok c →
  c = mars_service.VIKING ∨ c = mars_service.MOLA.
Proof.
  rewrite normalize_layer_key. simpl.
  repeat case_bool_decide; intros [= <-]; auto.
Qed.



(** ** Parsing and comparing dates *)

Lemma digit_cases c : Datetime.is_digit c = true → c ∈ digits.
Proof.
  destruct c as [[] [] [] [] [] [] [] []]; intros H; try discriminate H;
    unfold digits; rewrite !elem_of_cons; auto 12.
Qed.

Ltac each_digit c H :=
  let H' := fresh in
  pose proof (digit_cases c H) as H'; unfold digits in H';
  rewrite !elem_of_cons, elem_of_nil in H';
  destruct H' as [-> | [-> | [-> | [-> | [-> | [-> | [-> | [-> | [-> | [-> | []]]]]]]]]]].

Ltac eval_chars :=
  repeat match goal with
  | |- context [Datetime.in_range ?a ?b ?c] =>
      let v := eval vm_compute in (Datetime.in_range a b c) in
      change (Datetime.in_range a b c) with v
  | |- context [Datetime.is_digit ?c] =>
      let v := eval vm_compute in (Datetime.is_digit c) in change (Datetime.is_digit c) with v
  | |- context [Datetime.digit_val ?c] =>
      let v := eval vm_compute in (Datetime.digit_val c) in change (Datetime.digit_val c) with v
  end.

Lemma month_stage {T} m1 m2 r (K : Z → string → list T) :
  Datetime.is_digit m1 = true → Datetime.is_digit m2 = true →
  (m ← Datetime.re_m (String m1 (String m2 (String "-" r))); r2 ← Datetime.re_lit "-" m.2; K m.1 r2)
  = let mm := 10 * Datetime.digit_val m1 + Datetime.digit_val m2 in
    if (1 <=? mm) && (mm <=? 12) then K mm r else [].
Proof.
  intros H1 H2. each_digit m1 H1; each_digit m2 H2; unfold Datetime.re_m, Datetime.two_chars, Datetime.one_char;
    eval_chars; cbn; rewrite ?app_nil_r; reflexivity.
Qed.

Lemma day_stage {T} d1 d2 (y m : Z) (R : Z → Z → Z → option T) :
  Datetime.is_digit d1 = true → Datetime.is_digit d2 = true →
  match head (d ← Datetime.re_d (String d1 (String d2 "")); [(y, m, d.1, d.2)]) with
  | Some (y', m', d', EmptyString) => R y' m' d'
  | _ => None
  end
  = let dd := 10 * Datetime.digit_val d1 + Datetime.digit_val d2 in
    if (1 <=? dd) && (dd <=? 31) then R y m dd else None.
Proof.
  intros H1 H2. each_digit d1 H1; each_digit d2 H2; unfold Datetime.re_d, Datetime.two_chars, Datetime.one_char;
    eval_chars; reflexivity.
Qed.

Lemma days_in_month_le y m : Datetime.days_in_month y m ≤ 31.
Proof. unfold Datetime.days_in_month. repeat case_match; lia. Qed.

Lemma valid_date_bounds y m d :
  Datetime.valid_date y m d = true → (1 <=? m) && (m <=? 12) = true ∧ (1 <=? d) && (d <=? 31) = true.
Proof.
  unfold Datetime.valid_date. rewrite !andb_true_iff, !Z.leb_le.
  pose proof (days_in_month_le y m). lia.
Qed.

Lemma strptime_strict s :
  gibs_service.date_pattern s = true →
  Datetime.strptime_Ymd s =
    match Spec.iso_date s with
    | Some (y, m, d) => Some (Datetime.mk_datetime y m d 0 0 0 0)
    | None => None
    end.
Proof.
  do 10 (destruct s as [|? s]; [discriminate|]).
  destruct s; [|discriminate].
  unfold gibs_service.date_pattern, Spec.iso_date.
  intros H. rewrite H.
  apply andb_prop in H as [H Hh2]. apply andb_prop in H as [H Hh1].
  apply Ascii.eqb_eq in Hh1, Hh2. subst.
  simpl in H. repeat (apply andb_prop in H as [? H]).
  unfold Datetime.strptime_Ymd, Datetime.match_Ymd, Datetime.re_Y.
  repeat match goal with Hd : Datetime.is_digit ?c = true |- _ => rewrite Hd end.
  set (Y := 1000 * Datetime.digit_val _ + _ + _ + _).
  set (mm := 10 * Datetime.digit_val a4 + Datetime.digit_val a5).
  set (dd := 10 * Datetime.digit_val a7 + Datetime.digit_val a8).
  cbn [andb mbind list_bind fst snd Datetime.re_lit app].
  change ("-" =? "-")%char with true.
  cbn [mbind list_bind app]. rewrite !app_nil_r.
  pose proof (month_stage a4 a5 (String a7 (String a8 ""))
                (λ mv r2, Datetime.re_d r2 ≫= λ d : Z * string, [(Y, mv, d.1, d.2)]) H4 H5) as Em.
  cbv beta zeta in Em. fold mm in Em. rewrite Em. clear Em.
  destruct ((1 <=? mm) && (mm <=? 12)) eqn:Hm.
  - pose proof (day_stage a7 a8 Y mm
                  (λ y m d, if Datetime.valid_date y m d
                            then Some (Datetime.mk_datetime y m d 0 0 0 0) else None) H6 H7) as Ed.
    cbv beta zeta in Ed. fold dd in Ed. rewrite Ed. clear Ed.
    destruct ((1 <=? dd) && (dd <=? 31)) eqn:Hd.
    + by destruct (Datetime.valid_date Y mm dd).
    + destruct (Datetime.valid_date Y mm dd) eqn:V; [|done].
      apply valid_date_bounds in V as [_ V]. congruence.
  - destruct (Datetime.valid_date Y mm dd) eqn:V; [|done].
    apply valid_date_bounds in V as [V _]. congruence.
Qed.

Lemma gt_midnight y m d now :
  Datetime.wellformed now = true →
  Datetime.gt (Datetime.mk_datetime y m d 0 0 0 0) now = Datetime.lex_gt [y; m; d] (Datetime.date_of now).
Proof.
  destruct now as [ny nm nd h mi s us]. unfold Datetime.wellformed, Datetime.gt, Datetime.as_tuple, Datetime.date_of.
  cbn [Datetime.year Datetime.month Datetime.day Datetime.hour Datetime.minute Datetime.second Datetime.microsecond Datetime.lex_gt].
  rewrite !andb_true_iff, !Z.leb_le. intros Hw.
  apply eq_true_iff_eq.
  rewrite !orb_true_iff, !andb_true_iff, !orb_true_iff, !andb_true_iff,
    !Z.ltb_lt, !Z.eqb_eq.
  repeat rewrite ?orb_true_iff, ?andb_true_iff, ?Z.ltb_lt, ?Z.eqb_eq.
  intuition (try lia; try discriminate).
Qed.

Lemma validate_date_strict utcnow date :
  Datetime.wellformed utcnow = true →
  gibs_service.date_pattern date = true →
  gibs_service.validate_date utcnow date =
    match Spec.iso_date date with
    | None => Raise (gibs_service.invalid_date_format date)
    | Some d =>
        if Spec.after_today d utcnow
        then Raise (gibs_service.invalid_date utcnow date)
        else Ok tt
    end.
Proof.
  intros Hw Hp. unfold gibs_service.validate_date.
  rewrite (strptime_strict _ Hp).
  destruct (Spec.iso_date date) as [[[y m] d]|]; [|done].
  rewrite (gt_midnight _ _ _ _ Hw). unfold Spec.after_today. simpl.
  unfold raise_if. by destruct (Datetime.lex_gt [y; m; d] (Datetime.date_of utcnow)).
Qed.

(** ** The handlers, check by check *)

Lemma square_check_decide z x y :
  0 ≤ z →
  Py.ge_num x (Py.pow2 z) || Py.ge_num y (Py.pow2 z) || (x <? 0) || (y <? 0)
  = negb (bool_decide (0 ≤ y < 2 ^ z ∧ 0 ≤ x < 2 ^ z)).
Proof.
  intros Hz. case_bool_decide as H; simpl.
  - by apply square_check.
  - apply not_false_iff_true. by rewrite square_check.
Qed.

Lemma earth_handler u l d z y x t f :
  0 ≤ z → gibs_service.validate_date u d = Ok tt →
  gibs_service.get_earth_tile u l d z y x t f =
    if bool_decide (0 ≤ y < 2 ^ z ∧ 0 ≤ x < 2 ^ z)
    then HttpGet (gibs_service.tile_url l d t z y x f) config.EARTH_REQUEST_TIMEOUT
           (λ r, Ret (gibs_service.classify
                        (gibs_service.tile_url l d t z y x f) l d z y x f r))
    else Ret (gibs_service.coordinates_out_of_bounds z x y).
Proof.
  intros Hz Hd. unfold gibs_service.get_earth_tile. rewrite Hd.
  unfold gibs_service.validate_coordinates. simpl.
  rewrite square_check_decide by done. by case_bool_decide.
Qed.

Lemma earth_handler_date u l d z y x t f e :
  gibs_service.validate_date u d = Raise e →
  gibs_service.get_earth_tile u l d z y x t f = Ret e.
Proof. intros Hd. unfold gibs_service.get_earth_tile. by rewrite Hd. Qed.

Lemma moon_handler z y x l v s t f :
  0 ≤ z →
  moon_service.get_moon_tile z y x l v s t f =
    if bool_decide (0 ≤ y < 2 ^ z ∧ 0 ≤ x < 2 ^ z)
    then HttpGet (moon_service.tile_url l v s t z y x f) config.MOON_REQUEST_TIMEOUT
           (λ r, Ret (moon_service.classify
                        (moon_service.tile_url l v s t z y x f) l z y x f r))
    else Ret (moon_service.coordinates_out_of_bounds z x y).
Proof.
  intros Hz. unfold moon_service.get_moon_tile, moon_service.validate_coordinates.
  simpl. rewrite square_check_decide by done. by case_bool_decide.
Qed.

Lemma mars_handler_zoom M z y x l v s t f :
  z < mars_service.MIN_ZOOM ∨ M < z →
  mars_service.get_mars_tile M z y x l v s t f = Ret (mars_service.invalid_zoom M z).
Proof.
  intros Hz. unfold mars_service.get_mars_tile, mars_service.validate_zoom_level.
  rewrite handle_raise_if.
  destruct (Z.ltb_spec z mars_service.MIN_ZOOM), (Z.ltb_spec M z); simpl; try done; lia.
Qed.

Lemma mars_zoom_passes M z :
  mars_service.MIN_ZOOM ≤ z ≤ M →
  (z <? mars_service.MIN_ZOOM) || (M <? z) = false.
Proof. intros Hz. apply orb_false_iff. rewrite !Z.ltb_ge. lia. Qed.

Lemma mars_handler_layer M z y x l v s t f e :
  mars_service.MIN_ZOOM ≤ z ≤ M →
  mars_service.normalize_layer M l = Raise e →
  mars_service.get_mars_tile M z y x l v s t f = Ret e.
Proof.
  intros Hz Hl. unfold mars_service.get_mars_tile, mars_service.validate_zoom_level.
  rewrite handle_raise_if, mars_zoom_passes by done. by rewrite Hl.
Qed.

Lemma mars_handler M z y x l v s t f c :
  mars_service.MIN_ZOOM ≤ z ≤ M →
  mars_service.normalize_layer M l = Ok c →
  mars_service.get_mars_tile M z y x l v s t f =
    if bool_decide (0 ≤ y < 2 ^ z ∧ 0 ≤ x < 2 ^ z)
    then HttpGet (mars_service.tile_url c v s t z y x f)
           mars_service.MARS_REQUEST_TIMEOUT
           (λ r, Ret (mars_service.classify M
                        (mars_service.tile_url c v s t z y x f) c z y x f r))
    else Ret (mars_service.coordinates_out_of_bounds z x y (Py.pow2 z)).
Proof.
  intros Hz Hl. unfold mars_service.get_mars_tile, mars_service.validate_zoom_level.
  rewrite handle_raise_if, mars_zoom_passes by done. rewrite Hl.
  unfold mars_service.validate_tile_coordinates. simpl.
  rewrite square_check_decide by (unfold mars_service.MIN_ZOOM in Hz; lia).
  by case_bool_decide.
Qed.

Lemma mercury_handler_format z x y l v s t f :
  Py.lower f ≠ "jpg" →
  mercury_service.get_mercury_tile z x y l v s t f
  = Ret (mercury_service.unsupported_format f).
Proof.
  intros Hf. unfold mercury_service.get_mercury_tile. rewrite handle_raise_if.
  destruct (String.eqb_spec (Py.lower f) "jpg"); simpl; [done | done].
Qed.

Lemma mercury_handler_zoom z x y l v s t f :
  Py.lower f = "jpg" → z < 0 ∨ mercury_service.MAX_ZOOM < z →
  mercury_service.get_mercury_tile z x y l v s t f
  = Ret (mercury_service.zoom_out_of_range z).
Proof.
  intros Hf Hz. unfold mercury_service.get_mercury_tile.
  rewrite handle_raise_if, Hf. simpl. rewrite handle_raise_if.
  destruct (Z.ltb_spec z 0), (Z.ltb_spec mercury_service.MAX_ZOOM z); simpl; try done; lia.
Qed.

Lemma mercury_handler z x y l v s t f :
  Py.lower f = "jpg" → 0 ≤ z ≤ mercury_service.MAX_ZOOM →
  mercury_service.get_mercury_tile z x y l v s t f =
    if bool_decide (0 ≤ x < 2 ^ (z + 1))
    then if bool_decide (0 ≤ y < 2 ^ z)
         then HttpGet (mercury_service.tile_url l v s t z y x f)
                config.MERCURY_REQUEST_TIMEOUT
                (λ r, Ret (mercury_service.classify
                             (mercury_service.tile_url l v s t z y x f)
                             l v z y x s t f (2 ^ (z + 1)) (2 ^ z) r))
         else Ret (mercury_service.y_out_of_bounds z y (2 ^ (z + 1)) (2 ^ z))
    else Ret (mercury_service.x_out_of_bounds z x (2 ^ (z + 1)) (2 ^ z)).
Proof.
  intros Hf Hz. unfold mercury_service.get_mercury_tile.
  rewrite handle_raise_if, Hf. simpl. rewrite handle_raise_if.
  replace ((z <? 0) || (mercury_service.MAX_ZOOM <? z)) with false
    by (symmetry; apply orb_false_iff; rewrite !Z.ltb_ge; lia).
  cbv zeta. rewrite handle_raise_if.
  case_bool_decide as Hx.
  - replace ((x <? 0) || (2 ^ (z + 1) <=? x)) with false
      by (symmetry; apply orb_false_iff; rewrite Z.ltb_ge, Z.leb_gt; lia).
    rewrite handle_raise_if. case_bool_decide as Hy.
    + by replace ((y <? 0) || (2 ^ z <=? y)) with false
        by (symmetry; apply orb_false_iff; rewrite Z.ltb_ge, Z.leb_gt; lia).
    + replace ((y <? 0) || (2 ^ z <=? y)) with true; [done|].
      symmetry. apply orb_true_iff. rewrite Z.ltb_lt, Z.leb_le. lia.
  - replace ((x <? 0) || (2 ^ (z + 1) <=? x)) with true; [done|].
    symmetry. apply orb_true_iff. rewrite Z.ltb_lt, Z.leb_le. lia.
Qed.

(** ** Zoom and coordinates *)

Lemma iso_date_pattern s d :
  Spec.iso_date s = Some d → gibs_service.date_pattern s = true.
Proof.
  do 10 (destruct s as [|? s]; [discriminate|]).
  destruct s; [|discriminate].
  unfold Spec.iso_date, gibs_service.date_pattern.
  destruct (_ && Datetime.valid_date _ _ _) eqn:H; [|discriminate].
  intros _. by apply andb_prop in H as [H _].
Qed.

Lemma earth_date_passes e q :
  Datetime.wellformed (utcnow e) = true → Spec.others_pass e Earth q →
  gibs_service.validate_date (utcnow e) (date q) = Ok tt.
Proof.
  intros Hw [(d & Hd & Ht) _].
  rewrite validate_date_strict by eauto using iso_date_pattern.
  by rewrite Hd, Ht.
Qed.

Lemma mars_layer_passes e q :
  Spec.others_pass e Mars q →
  ∃ c, mars_service.normalize_layer (mars_max_zoom e) (layer q) = Ok c.
Proof.
  intros [[c Hc] _]. exists c. unfold mars_service.normalize_layer. by rewrite Hc.
Qed.

Lemma fetches_if (c : bool) url t k r :
  fetches (if c then HttpGet url t k else Ret r) = c.
Proof. by destruct c. Qed.

(** C2. At a zoom within the bounds of the body, the handler lets through
    exactly the columns below 2^z and the rows below 2^z for Earth, Moon
    and Mars, and the columns below 2^(z+1) and the rows below 2^z for
    Mercury; the Mercury handler answers column 16 at zoom 3 with status
    400, error X coordinate out of bounds, and the matrix 16×8. *)
Theorem tile_matrix_shape :
  (∀ e b q,
     Datetime.wellformed (utcnow e) = true →
     Spec.zoom_in_range e b q → Spec.others_pass e b q →
     (fetches (handler e b q) = true
      ↔ 0 ≤ col q < (Spec.tileMatrixShape b (zoom q)).1
        ∧ 0 ≤ row q < (Spec.tileMatrixShape b (zoom q)).2))
  ∧ (∀ z, Spec.tileMatrixShape Earth z = (2 ^ z, 2 ^ z)
          ∧ Spec.tileMatrixShape Moon z = (2 ^ z, 2 ^ z)
          ∧ Spec.tileMatrixShape Mars z = (2 ^ z, 2 ^ z)
          ∧ Spec.tileMatrixShape Mercury z = (2 ^ (z + 1), 2 ^ z))
  ∧ (∀ y l v s t f,
       Py.lower f = "jpg" →
       ∃ r, mercury_service.get_mercury_tile 3 16 y l v s t f = Ret r
            ∧ Spec.fails_with 400 Spec.CoordinatesOutOfBounds r
            ∧ error_of r = Some (JStr "X coordinate out of bounds")
            ∧ detail_field "tile_matrix" r = Some (JStr "16×8")).
Proof.
  split; [|split].
  - intros e b q Hw Hz Ho. unfold Spec.zoom_in_range, Spec.minZoom in Hz.
    destruct b; simpl in *.
    + rewrite earth_handler by (lia || by apply earth_date_passes).
      rewrite fetches_if, bool_decide_eq_true. lia.
    + rewrite moon_handler by lia.
      rewrite fetches_if, bool_decide_eq_true. lia.
    + destruct (mars_layer_passes e q Ho) as [c Hc].
      rewrite (mars_handler _ _ _ _ _ _ _ _ _ c) by done.
      rewrite fetches_if, bool_decide_eq_true. lia.
    + rewrite mercury_handler by done.
      repeat case_bool_decide; simpl; split; (lia || done).
  - done.
  - intros y l v s t f Hf. eexists. split.
    + rewrite mercury_handler by (done || by vm_compute). reflexivity.
    + by vm_compute.
Qed.

Lemma tile_matrix_shape_witness :
  fetches (handler sample_env Mercury (mercury_request 3 7 15 "jpg")) = true
  ↔ 0 ≤ 15 < 2 ^ (3 + 1) ∧ 0 ≤ 7 < 2 ^ 3.
Proof.
  apply (proj1 tile_matrix_shape sample_env Mercury (mercury_request 3 7 15 "jpg")).
  - reflexivity.
  - by vm_compute.
  - reflexivity.
Defined.

Lemma tile_route_unfold e b q :
  tile_route e b q
  = if declared_ok b q then handler e b q else Ret RequestValidationError.
Proof. by destruct b. Qed.

Lemma declared_ok_spec e b q :
  Spec.others_pass e b q →
  declared_ok b q = true
  ↔ 0 ≤ zoom q ∧ 0 ≤ row q ∧ 0 ≤ col q
    ∧ match b with
      | Earth | Moon => zoom q ≤ Spec.maxZoom e b
      | _ => True
      end.
Proof.
  intros Ho. destruct b; simpl in *;
    unfold gibs_service.query_ok, moon_service.query_ok, mars_service.query_ok,
      mercury_service.query_ok, mars_service.MIN_ZOOM, config.EARTH_MAX_ZOOM,
      config.MOON_MAX_ZOOM;
    rewrite ?andb_true_iff, ?Z.leb_le, ?bool_decide_eq_true.
  - destruct Ho as [(d & Hd & _) Hf].
    pose proof (iso_date_pattern _ _ Hd). intuition.
  - intuition.
  - destruct Ho as [_ Hf]. intuition.
  - intuition.
Qed.

Lemma fetches_handler e b q :
  Datetime.wellformed (utcnow e) = true → Spec.others_pass e b q →
  0 ≤ zoom q →
  fetches (handler e b q) = true
  ↔ Spec.in_matrix b q
    ∧ match b with
      | Earth | Moon => True
      | _ => Spec.zoom_in_range e b q
      end.
Proof.
  intros Hw Ho Hz.
  unfold Spec.in_matrix, Spec.zoom_in_range, Spec.minZoom, Spec.maxRows, Spec.maxCols.
  destruct b; simpl in *.
  - rewrite earth_handler by (lia || by apply earth_date_passes).
    rewrite fetches_if, bool_decide_eq_true. lia.
  - rewrite moon_handler by lia.
    rewrite fetches_if, bool_decide_eq_true. lia.
  - destruct (mars_layer_passes e q Ho) as [c Hc].
    destruct (decide (zoom q ≤ mars_max_zoom e)) as [Hm|Hm].
    + rewrite (mars_handler _ _ _ _ _ _ _ _ _ c) by done.
      rewrite fetches_if, bool_decide_eq_true. lia.
    + rewrite mars_handler_zoom by lia. simpl. split; [done | lia].
  - destruct (decide (zoom q ≤ 7)) as [Hm|Hm].
    + rewrite mercury_handler by done.
      repeat case_bool_decide; simpl; split; (lia || done).
    + rewrite mercury_handler_zoom by (done || unfold mercury_service.MAX_ZOOM; lia).
      simpl. split; [done | lia].
Qed.

Lemma handler_coordinates e b q :
  Datetime.wellformed (utcnow e) = true → Spec.others_pass e b q →
  Spec.zoom_in_range e b q → ¬ Spec.in_matrix b q →
  ∃ r, handler e b q = Ret r
       ∧ Spec.fails_with 400 Spec.CoordinatesOutOfBounds r.
Proof.
  intros Hw Ho Hz Hm.
  unfold Spec.in_matrix, Spec.zoom_in_range, Spec.minZoom, Spec.maxRows,
    Spec.maxCols in *.
  destruct b; simpl in *.
  - rewrite earth_handler by (lia || by apply earth_date_passes).
    rewrite bool_decide_eq_false_2 by lia. by eexists.
  - rewrite moon_handler by lia.
    rewrite bool_decide_eq_false_2 by lia. by eexists.
  - destruct (mars_layer_passes e q Ho) as [c Hc].
    rewrite (mars_handler _ _ _ _ _ _ _ _ _ c) by done.
    rewrite bool_decide_eq_false_2 by lia. by eexists.
  - rewrite mercury_handler by done.
    repeat case_bool_decide; try lia; by eexists.
Qed.

(** C1, as amended.  With the other validations passing, a request passes
    the route exactly when its row and column lie in the tile matrix of
    its zoom and its zoom lies in the bounds of the body.  A handler
    entered with a zoom in range and a row or column outside the matrix
    raises CoordinatesOutOfBounds with status 400, and the route answers
    the same when zoom, row and column are not negative.  A negative
    zoom, row or column never reaches the handler: the declared
    constraints answer 422.  The handlers of Earth and Moon check no zoom
    bound themselves. *)
Theorem coordinate_validation e b q :
  Datetime.wellformed (utcnow e) = true → Spec.others_pass e b q →
  (fetches (tile_route e b q) = true
   ↔ Spec.in_matrix b q ∧ Spec.zoom_in_range e b q)
  ∧ (Spec.zoom_in_range e b q → ¬ Spec.in_matrix b q →
     ∃ r, handler e b q = Ret r
          ∧ Spec.fails_with 400 Spec.CoordinatesOutOfBounds r)
  ∧ (Spec.zoom_in_range e b q → 0 ≤ row q → 0 ≤ col q →
     tile_route e b q = handler e b q)
  ∧ (zoom q < 0 ∨ row q < 0 ∨ col q < 0 →
     tile_route e b q = Ret RequestValidationError
     ∧ status_of RequestValidationError = 422)
  ∧ (b = Earth ∨ b = Moon → 0 ≤ zoom q →
     (fetches (handler e b q) = true ↔ Spec.in_matrix b q)).
Proof.
  intros Hw Ho. pose proof (declared_ok_spec e b q Ho) as Hq.
  split; [|split; [|split; [|split]]].
  - rewrite tile_route_unfold. destruct (decide (declared_ok b q = true)) as [Hd|Hd].
    + rewrite Hd. apply Hq in Hd.
      rewrite fetches_handler by (done || lia).
      unfold Spec.zoom_in_range, Spec.minZoom. destruct b; intuition lia.
    + rewrite (not_true_is_false _ Hd). simpl. split; [done|]. intros [Hm Hz].
      exfalso. apply Hd, Hq.
      unfold Spec.in_matrix, Spec.zoom_in_range, Spec.minZoom in *.
      destruct b; intuition lia.
  - by apply handler_coordinates.
  - intros Hz Hr Hc. rewrite tile_route_unfold.
    replace (declared_ok b q) with true; [done|].
    symmetry. apply Hq. unfold Spec.zoom_in_range, Spec.minZoom in Hz.
    destruct b; intuition lia.
  - intros Hneg. split; [|done]. rewrite tile_route_unfold.
    destruct (decide (declared_ok b q = true)) as [Hd|Hd].
    + apply Hq in Hd. lia.
    + by rewrite (not_true_is_false _ Hd).
  - intros Hb Hz. rewrite fetches_handler by done.
    destruct Hb as [-> | ->]; intuition.
Qed.

Lemma earth_request_others_pass z y x :
  Spec.others_pass sample_env Earth (earth_request z y x "2025-10-03").
Proof.
  split.
  - exists (2025, 10, 3). by vm_compute.
  - unfold earth_request, config.EARTH_DEFAULT_FORMAT. simpl.
    rewrite !elem_of_cons. auto.
Qed.

Lemma coordinate_validation_witness :
  fetches (tile_route sample_env Earth (earth_request 6 18 23 "2025-10-03")) = true
  ↔ Spec.in_matrix Earth (earth_request 6 18 23 "2025-10-03")
    ∧ Spec.zoom_in_range sample_env Earth (earth_request 6 18 23 "2025-10-03").
Proof.
  exact (proj1 (coordinate_validation sample_env Earth
                  (earth_request 6 18 23 "2025-10-03") eq_refl
                  (earth_request_others_pass 6 18 23))).
Defined.

(** C1 fails as it is stated, on the handlers and on the routes.  The
    Earth handler lets zoom 10 through at row 0 and column 0, above the
    maximum 9; the Earth route answers column -1 with 422, not with
    CoordinatesOutOfBounds and 400. *)
Lemma coordinate_claim_fails :
  ¬ coordinate_claim handler ∧ ¬ coordinate_claim tile_route.
Proof.
  split; intros H.
  - destruct (H sample_env Earth (earth_request 10 0 0 "2025-10-03") eq_refl
                (earth_request_others_pass _ _ _)) as [[Hf _] _].
    destruct (Hf eq_refl) as [_ [_ Hz]]. by vm_compute in Hz.
  - destruct (H sample_env Earth (earth_request 0 0 (-1) "2025-10-03") eq_refl
                (earth_request_others_pass _ _ _)) as [_ Hc].
    destruct Hc as (r & Hr & Hs & _).
    + by vm_compute.
    + unfold Spec.in_matrix. simpl. lia.
    + vm_compute in Hr. injection Hr as <-. discriminate Hs.
Qed.

(** ** Zoom bounds *)

Lemma earth_handler_kinds u l d z y x t f upstream :
  Spec.kind_of (run upstream (gibs_service.get_earth_tile u l d z y x t f)).2
  ≠ Some Spec.ZoomOutOfRange.
Proof.
  unfold gibs_service.get_earth_tile, gibs_service.validate_date.
  destruct (Datetime.strptime_Ymd d) as [p|]; [|by vm_compute].
  rewrite handle_raise_if. destruct (Datetime.gt p u); [by vm_compute|].
  unfold gibs_service.validate_coordinates. cbv zeta. rewrite handle_raise_if.
  destruct (_ || _); [by vm_compute|].
  simpl. unfold gibs_service.classify.
  destruct (upstream _) as [sc c| | |]; try by vm_compute.
  destruct (sc =? 404); [by vm_compute|].
  destruct (is_success sc); [|by vm_compute].
  unfold gibs_service.tile_response, new_Response.
  destruct (init_headers _ _); by vm_compute.
Qed.

Lemma moon_handler_kinds z y x l v s t f upstream :
  Spec.kind_of (run upstream (moon_service.get_moon_tile z y x l v s t f)).2
  ≠ Some Spec.ZoomOutOfRange.
Proof.
  unfold moon_service.get_moon_tile, moon_service.validate_coordinates.
  cbv zeta. rewrite handle_raise_if.
  destruct (_ || _); [by vm_compute|].
  simpl. unfold moon_service.classify.
  destruct (upstream _) as [sc c| | |]; try by vm_compute.
  destruct (sc =? 404); [by vm_compute|].
  destruct (is_success sc); [|by vm_compute].
  unfold moon_service.tile_response, new_Response.
  destruct (init_headers _ _); by vm_compute.
Qed.

(** C3, as amended.  The maximum zoom is 9 for Earth, 10 for Moon, 7 for
    Mars unless MARS_MAX_ZOOM overrides it, 7 for Mercury, and the minimum
    is 0.  The Mars handler answers a zoom outside its bounds with status
    400 and error invalid_zoom, before any other check; the Mercury
    handler answers it with status 400 and error Zoom level out of range
    once the format has passed.  Earth and Moon declare their zoom bounds
    as constraints of the route parameter: a zoom outside them is answered
    422 by parameter validation, and their handlers raise no zoom error at
    all.  On every route a negative zoom is answered 422. *)
Theorem zoom_validation e q :
  (config.EARTH_MAX_ZOOM = 9 ∧ config.MOON_MAX_ZOOM = 10
   ∧ mars_service.MAX_ZOOM None = 7
   ∧ (∀ n, mars_service.MAX_ZOOM (Some n) = n)
   ∧ mercury_service.MAX_ZOOM = 7 ∧ mars_service.MIN_ZOOM = 0)
  ∧ (¬ Spec.zoom_in_range e Mars q →
     handler e Mars q = Ret (mars_service.invalid_zoom (mars_max_zoom e) (zoom q))
     ∧ Spec.fails_with 400 Spec.ZoomOutOfRange
         (mars_service.invalid_zoom (mars_max_zoom e) (zoom q)))
  ∧ (Py.lower (format q) = "jpg" → ¬ Spec.zoom_in_range e Mercury q →
     handler e Mercury q = Ret (mercury_service.zoom_out_of_range (zoom q))
     ∧ Spec.fails_with 400 Spec.ZoomOutOfRange
         (mercury_service.zoom_out_of_range (zoom q)))
  ∧ (∀ b, b = Mars ∨ b = Mercury → Spec.others_pass e b q →
     0 ≤ zoom q → 0 ≤ row q → 0 ≤ col q → Spec.maxZoom e b < zoom q →
     ∃ r, tile_route e b q = Ret r ∧ Spec.fails_with 400 Spec.ZoomOutOfRange r)
  ∧ (∀ b, b = Earth ∨ b = Moon →
     (¬ Spec.zoom_in_range e b q →
      tile_route e b q = Ret RequestValidationError
      ∧ status_of RequestValidationError = 422)
     ∧ (∀ upstream,
          Spec.kind_of (run upstream (handler e b q)).2 ≠ Some Spec.ZoomOutOfRange))
  ∧ (∀ b, zoom q < 0 → tile_route e b q = Ret RequestValidationError).
Proof.
  split; [done|]. split; [|split; [|split; [|split]]].
  - intros Hz. split; [|done]. apply mars_handler_zoom.
    unfold Spec.zoom_in_range, Spec.minZoom, mars_service.MIN_ZOOM in *.
    simpl in Hz. lia.
  - intros Hf Hz. split; [|done]. apply mercury_handler_zoom; [done|].
    unfold Spec.zoom_in_range, Spec.minZoom, mercury_service.MAX_ZOOM in *.
    simpl in Hz. lia.
  - intros b Hb Ho Hz Hr Hc Hm. rewrite tile_route_unfold.
    replace (declared_ok b q) with true
      by (symmetry; apply (declared_ok_spec e b q Ho); destruct Hb as [-> | ->]; done).
    destruct Hb as [-> | ->]; simpl in *.
    + eexists. split; [apply mars_handler_zoom; lia | done].
    + eexists. split; [apply mercury_handler_zoom; [done | by right] | done].
  - intros b Hb. split.
    + intros Hz. split; [|done]. rewrite tile_route_unfold.
      replace (declared_ok b q) with false; [done|].
      symmetry. apply not_true_is_false. intros Hd.
      unfold Spec.zoom_in_range, Spec.minZoom in Hz.
      destruct Hb as [-> | ->]; simpl in *;
        unfold gibs_service.query_ok, moon_service.query_ok, config.EARTH_MAX_ZOOM,
          config.MOON_MAX_ZOOM in Hd;
        rewrite ?andb_true_iff, ?Z.leb_le in Hd; lia.
    + intros upstream. destruct Hb as [-> | ->]; simpl.
      * apply earth_handler_kinds.
      * apply moon_handler_kinds.
  - intros b Hz. rewrite tile_route_unfold.
    replace (declared_ok b q) with false; [done|].
    symmetry. apply not_true_is_false. intros Hd.
    destruct b; simpl in *;
      unfold gibs_service.query_ok, moon_service.query_ok, mars_service.query_ok,
        mercury_service.query_ok, mars_service.MIN_ZOOM in Hd;
      rewrite ?andb_true_iff, ?Z.leb_le in Hd; lia.
Qed.

Lemma zoom_validation_witness :
  ¬ Spec.zoom_in_range sample_env Mars (mk_request 8 0 0 "viking" "" "" "" "" "jpg")
  ∧ handler sample_env Mars (mk_request 8 0 0 "viking" "" "" "" "" "jpg")
    = Ret (mars_service.invalid_zoom 7 8).
Proof.
  assert (H : ¬ Spec.zoom_in_range sample_env Mars
                  (mk_request 8 0 0 "viking" "" "" "" "" "jpg")).
  { unfold Spec.zoom_in_range. simpl. unfold mars_service.MAX_ZOOM. simpl. lia. }
  split; [exact H|].
  exact (proj1 (proj1 (proj2 (zoom_validation sample_env
           (mk_request 8 0 0 "viking" "" "" "" "" "jpg"))) H)).
Defined.

(** C3 fails as it is stated, on the handlers and on the routes: at zoom
    10, above the maximum 9, the Earth handler goes on to the upstream
    request, and the Earth route answers 422, not ZoomOutOfRange and
    400. *)
Lemma zoom_claim_fails :
  ¬ zoom_claim handler ∧ ¬ zoom_claim tile_route.
Proof.
  split; intros H;
    destruct (H sample_env Earth (earth_request 10 0 0 "2025-10-03") eq_refl
                (earth_request_others_pass _ _ _)) as (r & Hr & Hs & _);
    try (unfold Spec.zoom_in_range; simpl; lia).
  - vm_compute in Hr. discriminate Hr.
  - vm_compute in Hr. injection Hr as <-. discriminate Hs.
Qed.

(** ** Dates *)





(** ** Validation comes before the upstream request *)

Ltac refused :=
  eexists; split;
  [ reflexivity
  | split;
    [ eexists; split; [vm_compute; reflexivity | reflexivity]
    | vm_compute; auto ] ].

(** Whether the response could be built. *)
Ltac built :=
  unfold gibs_service.tile_response, moon_service.tile_response,
    mars_service.tile_response, mercury_service.tile_response, new_Response;
  destruct (init_headers _ _).

Ltac not_a_validation_failure :=
  let k := fresh in let Hk := fresh in
  intros (k & Hk & ?); vm_compute in Hk;
  first [discriminate Hk | injection Hk as <-; discriminate].

(** A handler either returns a validation failure at once, or asks the
    upstream once, at the URL of its template, and answers with something
    that is no validation failure. *)
Lemma handler_shape e b q :
  (∃ r, handler e b q = Ret r ∧ Spec.validation_failure r ∧ refusal_status r)
  ∨ (∃ t k, handler e b q
            = HttpGet (url_template b (canonical_layer e b q) q) t (λ r, Ret (k r))
            ∧ ∀ r, ¬ Spec.validation_failure (k r)).
Proof.
  destruct b; simpl.
  - unfold gibs_service.get_earth_tile, gibs_service.validate_date.
    destruct (Datetime.strptime_Ymd (date q)) as [p|]; [|left; refused].
    rewrite handle_raise_if. destruct (Datetime.gt p (utcnow e)); [left; refused|].
    unfold gibs_service.validate_coordinates. cbv zeta. rewrite handle_raise_if.
    destruct (_ || _); [left; refused|].
    right. do 2 eexists. split; [reflexivity|].
    intros r. unfold gibs_service.classify.
    destruct r as [sc c| | |]; try not_a_validation_failure.
    destruct (sc =? 404); [not_a_validation_failure|].
    destruct (is_success sc); [built|]; not_a_validation_failure.
  - unfold moon_service.get_moon_tile, moon_service.validate_coordinates.
    cbv zeta. rewrite handle_raise_if.
    destruct (_ || _); [left; refused|].
    right. do 2 eexists. split; [reflexivity|].
    intros r. unfold moon_service.classify.
    destruct r as [sc c| | |]; try not_a_validation_failure.
    destruct (sc =? 404); [not_a_validation_failure|].
    destruct (is_success sc); [built|]; not_a_validation_failure.
  - unfold mars_service.get_mars_tile, mars_service.validate_zoom_level.
    rewrite handle_raise_if. destruct (_ || _); [left; refused|].
    unfold mars_service.normalize_layer.
    destruct (mars_service.SUPPORTED_LAYERS !! _) as [c|]; [|left; refused].
    unfold mars_service.validate_tile_coordinates. simpl.
    destruct (_ || _); [left; refused|].
    right. do 2 eexists. split; [reflexivity|].
    intros r. unfold mars_service.classify.
    destruct r as [sc ct| | |]; try not_a_validation_failure.
    destruct (sc =? 404); [not_a_validation_failure|].
    destruct (is_success sc); [built|]; not_a_validation_failure.
  - unfold mercury_service.get_mercury_tile.
    rewrite handle_raise_if. destruct (negb _); [left; refused|].
    rewrite handle_raise_if. destruct (_ || _); [left; refused|].
    cbv zeta. rewrite handle_raise_if. destruct (_ || _); [left; refused|].
    rewrite handle_raise_if. destruct (_ || _); [left; refused|].
    right. do 2 eexists. split; [reflexivity|].
    intros r. unfold mercury_service.classify.
    destruct r as [sc c| | |]; try not_a_validation_failure.
    destruct (sc =? 404); [not_a_validation_failure|].
    destruct (negb (sc =? 200)); [|built]; not_a_validation_failure.
Qed.











(** ** Classifying the upstream's answer *)

Lemma content_type_lookup f :
  config.CONTENT_TYPE_MAP !! f =
    if bool_decide (f ∈ ["jpg"; "jpeg"]) then Some "image/jpeg"
    else if bool_decide (f ∈ ["png"; "png8"]) then Some "image/png"
    else if bool_decide (f ∈ ["tif"; "tiff"]) then Some "image/tiff"
    else None.
Proof.
  unfold config.CONTENT_TYPE_MAP.
  repeat (rewrite lookup_insert; case_decide; [subst f; vm_compute; reflexivity|]).
  rewrite lookup_empty.
  rewrite !bool_decide_eq_false_2; [done| | |];
    rewrite ?elem_of_cons, elem_of_nil; intuition congruence.
Qed.

Lemma content_type_default f :
  f ∉ ["jpg"; "jpeg"; "png"; "png8"; "tif"; "tiff"] →
  config.content_type f = "image/jpeg".
Proof.
  intros Hf. unfold config.content_type. rewrite content_type_lookup.
  rewrite !bool_decide_eq_false_2; [done| | |]; intros Hin; apply Hf;
    revert Hin; rewrite ?elem_of_cons, ?elem_of_nil; intuition.
Qed.

(** ** Encoding the headers of a response *)

Lemma latin1_cons c s :
  Py.latin1 (String c s) = (nat_of_ascii c <? 196)%nat && Py.latin1 s.
Proof. reflexivity. Qed.

Lemma latin1_app s t : Py.latin1 (s ++ t) = Py.latin1 s && Py.latin1 t.
Proof.
  induction s as [|c s IH]; [done|].
  change (String c s ++ t) with (String c (s ++ t)).
  by rewrite !latin1_cons, IH, andb_assoc.
Qed.

Lemma isascii_latin1 s : Py.isascii s = true → Py.latin1 s = true.
Proof.
  unfold Py.isascii, Py.latin1.
  induction s as [|c s IH]; [done|]. cbn [list_ascii_of_string forallb].
  rewrite !andb_true_iff, !Nat.ltb_lt. intros [Hc Hs]. split; [lia | auto].
Qed.

Lemma latin1_pretty_N_go x s : Py.latin1 (pretty_N_go x s) = Py.latin1 s.
Proof.
  revert s. induction (N.lt_wf_0 x) as [x _ IH]; intros s.
  assert (x = 0 ∨ 0 < x)%N as [-> | Hx] by lia; [by rewrite pretty_N_go_0|].
  rewrite pretty_N_go_step by done. rewrite IH by (by apply N.div_lt).
  rewrite latin1_cons. unfold pretty_N_char. by repeat case_match.
Qed.

Lemma latin1_str n : Py.latin1 (Py.str n) = true.
Proof.
  assert (Hp : ∀ p : positive, Py.latin1 (pretty p) = true).
  { intros p. unfold pretty, pretty_positive, pretty, pretty_N.
    case_decide; [done|]. by rewrite latin1_pretty_N_go. }
  unfold Py.str, pretty, pretty_Z. destruct n as [|p|p]; [done | apply Hp |].
  change (Py.latin1 (String "-" (pretty p)) = true).
  by rewrite latin1_cons, Hp.
Qed.

Lemma content_type_values f :
  config.content_type f ∈ ["image/jpeg"; "image/png"; "image/tiff"].
Proof.
  unfold config.content_type. rewrite content_type_lookup.
  repeat case_bool_decide; simpl; rewrite !elem_of_cons; auto.
Qed.

Lemma latin1_content_type f : Py.latin1 (config.content_type f) = true.
Proof.
  pose proof (content_type_values f) as H.
  rewrite !elem_of_cons, elem_of_nil in H.
  destruct H as [-> | [-> | [-> | []]]]; reflexivity.
Qed.

Lemma digit_ascii c :
  Datetime.is_digit c = true → (nat_of_ascii c <? 128)%nat = true.
Proof.
  destruct c as [[] [] [] [] [] [] [] []]; intros H; try discriminate H;
    reflexivity.
Qed.

Lemma iso_date_ascii s d : Spec.iso_date s = Some d → Py.isascii s = true.
Proof.
  intros H. apply iso_date_pattern in H. revert H.
  do 10 (destruct s as [|? s]; [discriminate|]). destruct s; [|discriminate].
  unfold gibs_service.date_pattern. cbn [forallb].
  rewrite !andb_true_iff.
  intros [[(H1 & H2 & H3 & H4 & H5 & H6 & H7 & H8 & _) Hh1] Hh2].
  apply Ascii.eqb_eq in Hh1, Hh2. subst.
  unfold Py.isascii. cbn [list_ascii_of_string forallb].
  repeat match goal with
         | H : Datetime.is_digit ?c = true |- _ =>
             rewrite (digit_ascii c H); clear H
         end.
  reflexivity.
Qed.

Lemma jpg_casing_latin1 f : Py.lower f = "jpg" → Py.latin1 f = true.
Proof.
  rewrite lower_jpg_spellings. unfold jpg_spellings.
  rewrite !elem_of_cons, elem_of_nil.
  intros H; repeat destruct H as [-> | H]; done.
Qed.

(** Evaluates [latin1] on the constant texts of the goal. *)
Ltac latin1_consts :=
  repeat match goal with
  | |- context [Py.latin1 ?s] =>
      let v := eval vm_compute in (Py.latin1 s) in
      match v with
      | true => change (Py.latin1 s) with true
      end
  end;
  rewrite ?andb_true_l, ?andb_true_r.

Lemma earth_init_headers l d z f :
  init_headers (config.content_type f) (gibs_service.tile_headers l d z)
  = Py.latin1 l && Py.latin1 d.
Proof.
  unfold init_headers, gibs_service.tile_headers. cbn [forallb fst snd].
  rewrite latin1_str, latin1_content_type. by latin1_consts.
Qed.

Lemma moon_init_headers l z f :
  init_headers (config.content_type f) (moon_service.tile_headers l z)
  = Py.latin1 l.
Proof.
  unfold init_headers, moon_service.tile_headers. cbn [forallb fst snd].
  rewrite latin1_str, latin1_content_type. by latin1_consts.
Qed.

Lemma mars_init_headers M c z y x f :
  init_headers (config.content_type f) (mars_service.tile_headers M c z y x)
  = Py.latin1 c.
Proof.
  unfold init_headers, mars_service.tile_headers. cbn [forallb fst snd].
  rewrite !latin1_app, !latin1_str, latin1_content_type. by latin1_consts.
Qed.

Lemma mercury_init_headers l z y x f mc mr :
  init_headers (config.content_type f)
    (mercury_service.tile_headers l z y x f mc mr)
  = Py.latin1 l && Py.latin1 f.
Proof.
  unfold init_headers, mercury_service.tile_headers, mercury_service.tile_matrix.
  cbn [forallb fst snd].
  rewrite !latin1_app, !latin1_str, latin1_content_type. by latin1_consts.
Qed.

Lemma proxy_init_headers f :
  init_headers ("image/" ++ f) proxy_headers = Py.latin1 f.
Proof.
  unfold init_headers, proxy_headers. cbn [forallb fst snd].
  rewrite latin1_app. by latin1_consts.
Qed.

Lemma canonical_latin1 M layer c :
  mars_service.normalize_layer M layer = Ok c → Py.latin1 c = true.
Proof.
  intros H. by destruct (normalize_layer_canonical _ _ _ H) as [-> | ->].
Qed.

(** The upstream request of a valid request and what is done with its
    answer. *)
Lemma valid_handler e b q :
  Datetime.wellformed (utcnow e) = true → Spec.valid e b q →
  ∃ url t,
    handler e b q
    = HttpGet url t (λ r, Ret
        match b with
        | Earth =>
            gibs_service.classify url (layer q) (date q) (zoom q) (row q)
              (col q) (format q) r
        | Moon =>
            moon_service.classify url (layer q) (zoom q) (row q) (col q)
              (format q) r
        | Mars =>
            match mars_service.normalize_layer (mars_max_zoom e) (layer q) with
            | Ok c =>
                mars_service.classify (mars_max_zoom e) url c (zoom q) (row q)
                  (col q) (format q) r
            | Raise x => x
            end
        | Mercury =>
            mercury_service.classify url (layer q) (version q) (zoom q) (row q)
              (col q) (style q) (tileMatrixSet q) (format q)
              (2 ^ (zoom q + 1)) (2 ^ zoom q) r
        end).
Proof.
  intros Hw (Hz & Hm & Ho).
  unfold Spec.in_matrix, Spec.zoom_in_range, Spec.minZoom, Spec.maxRows,
    Spec.maxCols in *.
  destruct b; simpl in *.
  - rewrite earth_handler by (lia || by apply earth_date_passes).
    rewrite bool_decide_eq_true_2 by lia. eauto.
  - rewrite moon_handler by lia.
    rewrite bool_decide_eq_true_2 by lia. eauto.
  - destruct (mars_layer_passes e q Ho) as [c Hc].
    rewrite (mars_handler _ _ _ _ _ _ _ _ _ c) by done.
    rewrite bool_decide_eq_true_2 by lia. rewrite Hc. eauto.
  - rewrite mercury_handler by done.
    rewrite !bool_decide_eq_true_2 by lia. eauto.
Qed.

(** C7, as amended.  For a valid request, Earth, Moon and Mars answer an
    upstream 404 with TileNotFound and status 404, any other upstream
    status outside 2xx with an error of that same status, and every
    failure of the HTTP client, a timeout included, with a network error
    and status 502.  Mercury answers an upstream 404 with TileNotFound and
    status 404, every other upstream status but 200, the other 2xx
    included, with an upstream error and status 502, a timeout with a
    timeout error and status 502, and any other request failure with a
    network error and status 502.  An upstream 2xx, for Mercury an
    upstream 200, is answered with the bytes and the content type of the
    requested format when the layer written to the header X-Tile-Layer
    can be encoded as latin-1, which the resolved layer of Mars always
    can; when it cannot, building the response raises UnicodeEncodeError,
    which the handlers of Earth and Moon let escape and the handler of
    Mercury answers with an internal error and status 500.  The content
    type is image/jpeg for jpg and jpeg, image/png for png and png8,
    image/tiff for tif and tiff, and image/jpeg for any other format. *)
Theorem upstream_classification e b q res :
  Datetime.wellformed (utcnow e) = true → Spec.valid e b q →
  (let o := outcome (handler e b q) res in
   match b with
   | Mercury =>
       match res with
       | Responded sc content =>
           if sc =? 404 then Spec.fails_with 404 Spec.TileNotFound o
           else if sc =? 200
           then if Py.latin1 (canonical_layer e b q)
                then ∃ h, o = Response content (config.content_type (format q)) h
                else Spec.fails_with 500 Spec.InternalError o
           else Spec.fails_with 502 Spec.UpstreamError o
       | RaisedTimeout _ => Spec.fails_with 502 Spec.Timeout o
       | RaisedRequestError _ => Spec.fails_with 502 Spec.NetworkError o
       | RaisedOther _ => Spec.fails_with 500 Spec.InternalError o
       end
   | _ =>
       match res with
       | Responded sc content =>
           if sc =? 404 then Spec.fails_with 404 Spec.TileNotFound o
           else if is_success sc
           then if Py.latin1 (canonical_layer e b q)
                then ∃ h, o = Response content (config.content_type (format q)) h
                else o = Unhandled "UnicodeEncodeError"
           else Spec.fails_with sc Spec.UpstreamError o
       | RaisedTimeout _ | RaisedRequestError _ =>
           Spec.fails_with 502 Spec.NetworkError o
       | RaisedOther t => o = Unhandled t
       end
   end)
  ∧ (b = Mars → Py.latin1 (canonical_layer e b q) = true)
  ∧ (config.content_type "jpg" = "image/jpeg"
     ∧ config.content_type "jpeg" = "image/jpeg"
     ∧ config.content_type "png" = "image/png"
     ∧ config.content_type "png8" = "image/png"
     ∧ config.content_type "tif" = "image/tiff"
     ∧ config.content_type "tiff" = "image/tiff"
     ∧ ∀ f, f ∉ ["jpg"; "jpeg"; "png"; "png8"; "tif"; "tiff"] →
            config.content_type f = "image/jpeg").
Proof.
  intros Hw Hv. split; [|split].
  - destruct (valid_handler e b q Hw Hv) as (url & t & Hh).
    unfold outcome. rewrite Hh. cbn [run snd].
    destruct b.
    + unfold gibs_service.classify. destruct res as [sc c| | |]; try done.
      destruct (sc =? 404); [done|]. destruct (is_success sc); [|done].
      destruct Hv as (_ & _ & (d & Hd & _) & _).
      unfold gibs_service.tile_response, new_Response.
      rewrite earth_init_headers.
      rewrite (isascii_latin1 _ (iso_date_ascii _ _ Hd)), andb_true_r.
      simpl. destruct (Py.latin1 (layer q)); [by eexists | done].
    + unfold moon_service.classify. destruct res as [sc c| | |]; try done.
      destruct (sc =? 404); [done|]. destruct (is_success sc); [|done].
      unfold moon_service.tile_response, new_Response.
      rewrite moon_init_headers.
      simpl. destruct (Py.latin1 (layer q)); [by eexists | done].
    + destruct Hv as (_ & _ & Ho). destruct (mars_layer_passes e q Ho) as [c Hc].
      unfold canonical_layer. rewrite Hc.
      unfold mars_service.classify. destruct res as [sc ct| | |]; try done.
      destruct (sc =? 404); [done|]. destruct (is_success sc); [|done].
      unfold mars_service.tile_response, new_Response.
      rewrite mars_init_headers, (canonical_latin1 _ _ _ Hc). by eexists.
    + unfold mercury_service.classify. destruct res as [sc c| | |]; try done.
      destruct (sc =? 404); [done|]. destruct (sc =? 200); [|done].
      destruct Hv as (_ & _ & Ho). simpl in Ho.
      unfold mercury_service.tile_response, new_Response.
      rewrite mercury_init_headers, (jpg_casing_latin1 _ Ho), andb_true_r.
      simpl. destruct (Py.latin1 (layer q)); [by eexists | done].
  - intros ->. destruct Hv as (_ & _ & Ho).
    destruct (mars_layer_passes e q Ho) as [c Hc].
    unfold canonical_layer. rewrite Hc. by apply (canonical_latin1 _ _ _ Hc).
  - repeat split; try (by vm_compute). apply content_type_default.
Qed.

Lemma upstream_classification_witness :
  Spec.fails_with 502 Spec.UpstreamError
    (outcome (handler sample_env Mercury (mercury_request 3 7 15 "jpg"))
       (Responded 204 ""))
  ∧ outcome (handler sample_env Moon
               (mk_request 2 1 3 "月" "" "1.0.0" "default" "default028mm" "jpg"))
      (Responded 200 "")
    = Unhandled "UnicodeEncodeError".
Proof.
  assert (Hv : Spec.valid sample_env Mercury (mercury_request 3 7 15 "jpg")).
  { repeat split; by vm_compute. }
  assert (Hm : Spec.valid sample_env Moon
                 (mk_request 2 1 3 "月" "" "1.0.0" "default" "default028mm" "jpg")).
  { split; [by vm_compute|]. split; [by vm_compute|].
    simpl. rewrite !elem_of_cons. auto. }
  split.
  - exact (proj1 (upstream_classification sample_env Mercury
                    (mercury_request 3 7 15 "jpg") (Responded 204 "") eq_refl Hv)).
  - exact (proj1 (upstream_classification sample_env Moon
                    (mk_request 2 1 3 "月" "" "1.0.0" "default" "default028mm" "jpg")
                    (Responded 200 "") eq_refl Hm)).
Defined.

(** C7 fails as it is stated: the Mercury handler answers an upstream 204,
    a 2xx, with an upstream error and status 502, not with the bytes; and
    the Earth handler answers a timeout with the kind NetworkError, not
    Timeout. *)
Lemma classification_claim_fails :
  ¬ classification_claim
  ∧ Spec.fails_with 502 Spec.UpstreamError
      (outcome (handler sample_env Mercury (mercury_request 3 7 15 "jpg"))
         (Responded 204 ""))
  ∧ Spec.fails_with 502 Spec.NetworkError
      (outcome (handler sample_env Earth (earth_request 6 18 23 "2025-10-03"))
         (RaisedTimeout "timed out")).
Proof.
  split; [|by vm_compute]. intros H.
  assert (Hv : Spec.valid sample_env Mercury (mercury_request 3 7 15 "jpg")).
  { repeat split; by vm_compute. }
  destruct (H sample_env Mercury (mercury_request 3 7 15 "jpg")
              (Responded 204 "") eq_refl Hv) as [h Hh].
  vm_compute in Hh. discriminate Hh.
Qed.

(** ** The upstream URL *)

Lemma canonical_layer_env e e' b q :
  canonical_layer e b q = canonical_layer e' b q.
Proof.
  destruct b; try done. unfold canonical_layer, mars_service.normalize_layer.
  by destruct (mars_service.SUPPORTED_LAYERS !! _).
Qed.

Lemma requested_url_template e b q url :
  requested_url (handler e b q) = Some url →
  url = url_template b (canonical_layer e b q) q.
Proof.
  destruct (handler_shape e b q) as [(r & -> & _) | (t & k & -> & _)];
    [discriminate | by intros [= <-]].
Qed.

(** C8. The URL a handler asks the upstream for is the template of its
    body filled with the request's parameters: for Earth
    base/layer/default/date/tileMatrixSet/z/y/x.format, with the literal
    segment default after the layer and the row before the column; for
    Moon, Mars and Mercury base/layer/version/style/tileMatrixSet/z/y/x.format,
    where Mars puts the resolved layer.  The URL is a function of these
    parameters alone: it is the same under another clock or configuration
    and whatever the upstream answers, it is the only URL requested, and
    every valid request is fetched from it. *)
Theorem url_shape e b q :
  (∀ url, requested_url (handler e b q) = Some url →
          url = url_template b (canonical_layer e b q) q)
  ∧ (∀ upstream,
       (run upstream (handler e b q)).1
       = match requested_url (handler e b q) with
         | Some url => [url]
         | None => []
         end)
  ∧ (∀ e' url url',
       requested_url (handler e b q) = Some url →
       requested_url (handler e' b q) = Some url' → url = url')
  ∧ (Datetime.wellformed (utcnow e) = true → Spec.valid e b q →
     requested_url (handler e b q)
     = Some (url_template b (canonical_layer e b q) q))
  ∧ url_template Earth (canonical_layer e Earth q) q
    = config.GIBS_BASE_URL ++ "/" ++ layer q ++ "/default/" ++ date q ++ "/"
      ++ tileMatrixSet q ++ "/" ++ Py.str (zoom q) ++ "/" ++ Py.str (row q)
      ++ "/" ++ Py.str (col q) ++ "." ++ format q.
Proof.
  split; [|split; [|split; [|split]]].
  - apply requested_url_template.
  - intros upstream.
    by destruct (handler_shape e b q) as [(r & -> & _) | (t & k & -> & _)].
  - intros e' url url' Hu Hu'.
    apply requested_url_template in Hu, Hu'.
    by rewrite Hu, Hu', (canonical_layer_env e e').
  - intros Hw Hv. destruct (valid_handler e b q Hw Hv) as (url & t & Hh).
    rewrite Hh. simpl. f_equal. apply requested_url_template. by rewrite Hh.
  - done.
Qed.

Lemma url_shape_witness :
  requested_url (handler sample_env Earth (earth_request 6 18 23 "2025-10-03"))
  = Some "https://gibs.earthdata.nasa.gov/wmts/epsg3857/best/VIIRS_SNPP_CorrectedReflectance_TrueColor/default/2025-10-03/GoogleMapsCompatible_Level9/6/18/23.jpg".
Proof.
  assert (Hv : Spec.valid sample_env Earth (earth_request 6 18 23 "2025-10-03")).
  { split; [by vm_compute|]. split; [by vm_compute|].
    apply earth_request_others_pass. }
  exact (proj1 (proj2 (proj2 (proj2 (url_shape sample_env Earth
                  (earth_request 6 18 23 "2025-10-03"))))) eq_refl Hv).
Defined.

(** ** The strict format of Mercury *)

(** C9. The Mercury handler checks the format first: a format that does
    not lower-case to jpg is answered with status 406, error Unsupported
    format, whatever the zoom and the coordinates are, in range or not,
    and no upstream request is made; the route answers the same for every
    zoom, column and row that are not negative. *)
Theorem mercury_format_first z x y l v s t f :
  Py.lower f ≠ "jpg" →
  mercury_service.get_mercury_tile z x y l v s t f
    = Ret (mercury_service.unsupported_format f)
  ∧ Spec.fails_with 406 Spec.UnsupportedFormat (mercury_service.unsupported_format f)
  ∧ (∀ upstream,
       run upstream (mercury_service.get_mercury_tile z x y l v s t f)
       = ([], mercury_service.unsupported_format f))
  ∧ (0 ≤ z → 0 ≤ x → 0 ≤ y →
     mercury_service.tile_route z x y l v s t f
     = Ret (mercury_service.unsupported_format f)).
Proof.
  intros Hf. pose proof (mercury_handler_format z x y l v s t f Hf) as Hh.
  split; [done|]. split; [done|]. split.
  - intros upstream. by rewrite Hh.
  - intros Hz Hx Hy. unfold mercury_service.tile_route, mercury_service.query_ok.
    replace ((0 <=? z) && (0 <=? x) && (0 <=? y)) with true; [done|].
    symmetry. rewrite !andb_true_iff, !Z.leb_le. lia.
Qed.

Lemma mercury_format_first_witness :
  Py.lower "PNG" ≠ "jpg"
  ∧ mercury_service.get_mercury_tile 8 1000 1000 "" "" "" "" "PNG"
    = Ret (mercury_service.unsupported_format "PNG").
Proof.
  assert (H : Py.lower "PNG" ≠ "jpg") by (by vm_compute).
  split; [exact H|].
  exact (proj1 (mercury_format_first 8 1000 1000 "" "" "" "" "PNG" H)).
Defined.

Lemma jpg_casing_not_in_map f :
  Py.lower f = "jpg" → f ≠ "jpg" → config.CONTENT_TYPE_MAP !! f = None.
Proof.
  intros Hl Hf. rewrite content_type_lookup.
  repeat case_bool_decide; try done;
    match goal with
    | H : f ∈ _ |- _ =>
        rewrite ?elem_of_cons, elem_of_nil in H;
        destruct H as [-> | [-> | []]]; (done || discriminate Hl)
    end.
Qed.

Lemma jpg_casing_content_type f :
  Py.lower f = "jpg" → config.content_type f = "image/jpeg".
Proof.
  intros Hl. destruct (decide (f = "jpg")) as [-> | Hf]; [by vm_compute|].
  unfold config.content_type. by rewrite jpg_casing_not_in_map.
Qed.

(** C10. The format check of Mercury ignores case: a format that
    lower-cases to jpg passes it, the URL of the upstream request ends
    with the format as the caller wrote it, and the content type of the
    tile returned after an upstream 200 is image/jpeg, by the default of
    the lookup when the format is not written jpg.  The tile is returned
    when the layer, which goes into a response header, can be encoded as
    latin-1; otherwise the answer is the internal error of status 500. *)
Theorem mercury_format_casing z x y l v s t f :
  Py.lower f = "jpg" →
  0 ≤ z ≤ mercury_service.MAX_ZOOM → 0 ≤ x < 2 ^ (z + 1) → 0 ≤ y < 2 ^ z →
  requested_url (mercury_service.get_mercury_tile z x y l v s t f)
    = Some (config.TREK_MERCURY_BASE_URL ++ "/" ++ l ++ "/" ++ v ++ "/" ++ s
            ++ "/" ++ t ++ "/" ++ Py.str z ++ "/" ++ Py.str y ++ "/"
            ++ Py.str x ++ "." ++ f)
  ∧ (∀ content,
       let o := outcome (mercury_service.get_mercury_tile z x y l v s t f)
                  (Responded 200 content) in
       if Py.latin1 l
       then ∃ h, o = Response content "image/jpeg" h
       else o = mercury_service.internal_server_error "UnicodeEncodeError")
  ∧ (f ≠ "jpg" → config.CONTENT_TYPE_MAP !! f = None).
Proof.
  intros Hf Hz Hx Hy.
  rewrite mercury_handler, !bool_decide_eq_true_2 by done.
  split; [done|]. split.
  - intros content. unfold outcome. simpl.
    unfold mercury_service.tile_response, new_Response.
    rewrite mercury_init_headers, (jpg_casing_latin1 f Hf), andb_true_r.
    rewrite (jpg_casing_content_type f Hf).
    destruct (Py.latin1 l); [by eexists | done].
  - by apply jpg_casing_not_in_map.
Qed.

Lemma mercury_format_casing_witness :
  requested_url (mercury_service.get_mercury_tile 3 15 7 "L" "1.0.0" "default"
                   "default028mm" "JPG")
  = Some "https://trek.nasa.gov/tiles/Mercury/EQ/L/1.0.0/default/default028mm/3/7/15.JPG"
  ∧ ∃ h, outcome (mercury_service.get_mercury_tile 3 15 7 "L" "1.0.0" "default"
                    "default028mm" "JPG") (Responded 200 "bytes")
         = Response "bytes" "image/jpeg" h.
Proof.
  assert (H1 : Py.lower "JPG" = "jpg") by reflexivity.
  assert (H2 : 0 ≤ 3 ≤ mercury_service.MAX_ZOOM) by (by vm_compute).
  assert (H3 : 0 ≤ 15 < 2 ^ (3 + 1)) by (by vm_compute).
  assert (H4 : 0 ≤ 7 < 2 ^ 3) by (by vm_compute).
  split.
  - exact (proj1 (mercury_format_casing 3 15 7 "L" "1.0.0" "default"
                    "default028mm" "JPG" H1 H2 H3 H4)).
  - exact (proj1 (proj2 (mercury_format_casing 3 15 7 "L" "1.0.0" "default"
                           "default028mm" "JPG" H1 H2 H3 H4)) "bytes").
Defined.

(** * Further properties of the code *)

(** ** Mercury: accepted formats, capabilities and URL template *)

(** X1. The Mercury handler refuses a format with status 406 unless it is
    one of the eight spellings of jpg in upper and lower case; of these
    only jpg itself is a key of the content type table. *)
Theorem mercury_accepted_formats z x y l v s t f :
  (mercury_service.get_mercury_tile z x y l v s t f
   = Ret (mercury_service.unsupported_format f)
   ↔ f ∉ jpg_spellings)
  ∧ (f ∈ jpg_spellings →
     (is_Some (config.CONTENT_TYPE_MAP !! f) ↔ f = "jpg")).
Proof.
  split.
  - rewrite <- lower_jpg_spellings. split.
    + intros Hr Hf.
      destruct (decide (0 ≤ z ≤ mercury_service.MAX_ZOOM)) as [Hz|Hz].
      * rewrite mercury_handler in Hr by done.
        repeat case_bool_decide; discriminate Hr.
      * rewrite mercury_handler_zoom in Hr by (done || lia). discriminate Hr.
    + apply mercury_handler_format.
  - intros Hf. apply lower_jpg_spellings in Hf. split.
    + intros [c Hc]. destruct (decide (f = "jpg")) as [|Hn]; [done|].
      by rewrite jpg_casing_not_in_map in Hc.
    + intros ->. eexists. vm_compute. reflexivity.
Qed.

Lemma mercury_accepted_formats_witness :
  "jPG" ∈ jpg_spellings
  ∧ (is_Some (config.CONTENT_TYPE_MAP !! "jPG") ↔ "jPG" = "jpg").
Proof.
  assert (H : "jPG" ∈ jpg_spellings)
    by (unfold jpg_spellings; rewrite !elem_of_cons; auto 10).
  split; [exact H|].
  exact (proj2 (mercury_accepted_formats 0 0 0 "" "" "" "" "jPG") H).
Defined.

Lemma string_app_nil_r (s : string) : s ++ "" = s.
Proof.
  induction s as [|c s IH]; [done|].
  change (String c (s ++ "") = String c s). by rewrite IH.
Qed.

(** X2. Filling the URL template that the Mercury capabilities advertise
    with the parameters of a request gives the URL the handler asks the
    upstream for. *)
Theorem mercury_template_instance z x y l v s t f :
  field "resource_url_template" mercury_service.get_mercury_capabilities
    = Some (JStr mercury_service.tile_url_template)
  ∧ fill [ ("layer", l); ("version", v); ("style", s); ("TileMatrixSet", t);
           ("z", Py.str z); ("y", Py.str y); ("x", Py.str x); ("format", f) ]
      None mercury_service.tile_url_template
    = mercury_service.tile_url l v s t z y x f
  ∧ (Py.lower f = "jpg" → 0 ≤ z ≤ mercury_service.MAX_ZOOM →
     0 ≤ x < 2 ^ (z + 1) → 0 ≤ y < 2 ^ z →
     requested_url (mercury_service.get_mercury_tile z x y l v s t f)
     = Some (fill [ ("layer", l); ("version", v); ("style", s);
                    ("TileMatrixSet", t); ("z", Py.str z); ("y", Py.str y);
                    ("x", Py.str x); ("format", f) ]
               None mercury_service.tile_url_template)).
Proof.
  assert (Hfill : fill [ ("layer", l); ("version", v); ("style", s);
                         ("TileMatrixSet", t); ("z", Py.str z); ("y", Py.str y);
                         ("x", Py.str x); ("format", f) ]
                    None mercury_service.tile_url_template
                  = mercury_service.tile_url l v s t z y x f).
  { unfold mercury_service.tile_url.
    generalize (Py.str z) (Py.str y) (Py.str x). intros sz sy sx.
    vm_compute. by rewrite string_app_nil_r. }
  split; [by vm_compute|]. split; [done|].
  intros Hf Hz Hx Hy. rewrite Hfill.
  by rewrite mercury_handler, !bool_decide_eq_true_2 by done.
Qed.

Lemma mercury_template_instance_witness :
  requested_url (mercury_service.get_mercury_tile 3 8 4 "L" "1.0.0" "default"
                   "default028mm" "jpg")
  = Some (fill [ ("layer", "L"); ("version", "1.0.0"); ("style", "default");
                 ("TileMatrixSet", "default028mm"); ("z", Py.str 3);
                 ("y", Py.str 4); ("x", Py.str 8); ("format", "jpg") ]
            None mercury_service.tile_url_template).
Proof.
  assert (H1 : Py.lower "jpg" = "jpg") by reflexivity.
  assert (H2 : 0 ≤ 3 ≤ mercury_service.MAX_ZOOM) by (by vm_compute).
  assert (H3 : 0 ≤ 8 < 2 ^ (3 + 1)) by (by vm_compute).
  assert (H4 : 0 ≤ 4 < 2 ^ 3) by (by vm_compute).
  exact (proj2 (proj2 (mercury_template_instance 3 8 4 "L" "1.0.0" "default"
                         "default028mm" "jpg")) H1 H2 H3 H4).
Defined.

(** X3. The tile matrices that the Mercury capabilities list are the
    bounds the handler enforces: a request with a jpg format is fetched
    exactly when the list has an entry for its zoom and its column and row
    lie below the width and the height of that entry. *)
Theorem mercury_capabilities_match z x y l v s t f :
  Py.lower f = "jpg" →
  (fetches (mercury_service.get_mercury_tile z x y l v s t f) = true
   ↔ ∃ entry w h,
       entry ∈ mercury_service.tile_matrices
       ∧ field "zoom" entry = Some (JInt z)
       ∧ field "matrix_width" entry = Some (JInt w)
       ∧ field "matrix_height" entry = Some (JInt h)
       ∧ 0 ≤ x < w ∧ 0 ≤ y < h)
  ∧ (field "tile_matrix_set" mercury_service.get_mercury_capabilities
       ≫= field "tile_matrices")
    = Some (JList mercury_service.tile_matrices)
  ∧ field "max_zoom" mercury_service.get_mercury_capabilities
    = Some (JInt mercury_service.MAX_ZOOM).
Proof.
  intros Hf. split; [|by vm_compute]. split.
  - intros Hfetch.
    destruct (decide (0 ≤ z ≤ mercury_service.MAX_ZOOM)) as [Hz|Hz].
    + rewrite mercury_handler in Hfetch by done.
      repeat case_bool_decide; try discriminate Hfetch.
      unfold mercury_service.MAX_ZOOM in Hz.
      assert (Hc : z = 0 ∨ z = 1 ∨ z = 2 ∨ z = 3 ∨ z = 4 ∨ z = 5 ∨ z = 6 ∨ z = 7)
        by lia.
      exists (mercury_service.tile_matrix_entry z (2 ^ (z + 1)) (2 ^ z)
                (if z =? 0 then 279000000 else if z =? 1 then 140000000
                 else if z =? 2 then 69800000 else if z =? 3 then 34900000
                 else if z =? 4 then 17500000 else if z =? 5 then 8730000
                 else if z =? 6 then 4360000 else 2180000)),
        (2 ^ (z + 1)), (2 ^ z).
      split; [|done].
      unfold mercury_service.tile_matrices. rewrite !elem_of_cons.
      repeat destruct Hc as [-> | Hc]; try subst z; simpl; auto 10.
    + rewrite mercury_handler_zoom in Hfetch by (done || lia). discriminate.
  - intros (entry & w & h & Hin & Hz & Hw & Hh & Hx & Hy).
    unfold mercury_service.tile_matrices in Hin.
    rewrite !elem_of_cons, elem_of_nil in Hin.
    repeat destruct Hin as [-> | Hin]; try done;
      injection Hz as <-; injection Hw as <-; injection Hh as <-;
      rewrite mercury_handler by (done || by vm_compute);
      rewrite !bool_decide_eq_true_2; done.
Qed.

Lemma mercury_capabilities_match_witness :
  fetches (mercury_service.get_mercury_tile 7 255 127 "" "" "" "" "jpg") = true
  ↔ ∃ entry w h,
      entry ∈ mercury_service.tile_matrices
      ∧ field "zoom" entry = Some (JInt 7)
      ∧ field "matrix_width" entry = Some (JInt w)
      ∧ field "matrix_height" entry = Some (JInt h)
      ∧ 0 ≤ 255 < w ∧ 0 ≤ 127 < h.
Proof.
  exact (proj1 (mercury_capabilities_match 7 255 127 "" "" "" "" "jpg" eq_refl)).
Defined.

(** ** Mars: advertised names and zoom bounds *)

Lemma advertised_viking M :
  Py.lower <$> advertised_names (mars_service.metadata M mars_service.VIKING)
  = viking_keys.
Proof. by vm_compute. Qed.

Lemma advertised_mola M :
  Py.lower <$> advertised_names (mars_service.metadata M mars_service.MOLA)
  = mola_keys.
Proof. by vm_compute. Qed.

Lemma keys_disjoint k : k ∈ viking_keys → k ∈ mola_keys → False.
Proof.
  unfold viking_keys, mola_keys. rewrite !elem_of_cons, !elem_of_nil.
  intros Hv Hm. repeat destruct Hv as [-> | Hv]; try done;
    repeat destruct Hm as [Hm | Hm]; done.
Qed.

Lemma normalize_layer_viking M layer :
  mars_service.normalize_layer M layer = Ok mars_service.VIKING
  ↔ Py.lower (Py.strip layer) ∈ viking_keys.
Proof.
  rewrite normalize_layer_key. simpl. repeat case_bool_decide; split; done.
Qed.

Lemma normalize_layer_mola M layer :
  mars_service.normalize_layer M layer = Ok mars_service.MOLA
  ↔ Py.lower (Py.strip layer) ∈ mola_keys.
Proof.
  rewrite normalize_layer_key. simpl.
  repeat case_bool_decide; split; try done.
  intros. exfalso. eauto using keys_disjoint.
Qed.

(** X4. The names under which the 422 answer of Mars advertises a
    supported layer, its id and its aliases, are the names the resolver
    accepts for it: an input resolves to a layer exactly when, trimmed and
    lower-cased, it is one of the advertised names of that layer
    lower-cased. *)
Theorem mars_advertised_names M layer id :
  id ∈ [mars_service.VIKING; mars_service.MOLA] →
  (mars_service.normalize_layer M layer = Ok id
   ↔ Py.lower (Py.strip layer)
     ∈ Py.lower <$> advertised_names (mars_service.metadata M id))
  ∧ (detail_field "supported" (mars_service.unsupported_layer M layer)
     = Some (JList [ mars_service.metadata M mars_service.VIKING;
                     mars_service.metadata M mars_service.MOLA ])).
Proof.
  rewrite !elem_of_cons, elem_of_nil. intros [-> | [-> | []]]; (split; [|done]).
  - rewrite advertised_viking. apply normalize_layer_viking.
  - rewrite advertised_mola. apply normalize_layer_mola.
Qed.

Lemma mars_advertised_names_witness :
  mars_service.normalize_layer 7 " MARS_MGS_MOLA " = Ok mars_service.MOLA
  ↔ Py.lower (Py.strip " MARS_MGS_MOLA ")
    ∈ Py.lower <$> advertised_names (mars_service.metadata 7 mars_service.MOLA).
Proof.
  assert (H : mars_service.MOLA ∈ [mars_service.VIKING; mars_service.MOLA])
    by (rewrite !elem_of_cons; auto).
  exact (proj1 (mars_advertised_names 7 " MARS_MGS_MOLA " mars_service.MOLA H)).
Defined.

(** X5. The layers GET /mars/layers lists are the layers the resolver can
    answer: an input resolves to an id exactly when the list has an entry
    of that id that advertises the input, trimmed and lower-cased, among
    its id and aliases; the total it reports is the length of the list,
    and the zoom bounds of every entry are the ones in force. *)
Theorem mars_layers_listed M utcnow :
  ∃ entries,
    field "layers" (mars_service.mars_layers M utcnow) = Some (JList entries)
    ∧ field "total" (mars_service.mars_layers M utcnow)
      = Some (JInt (Z.of_nat (length entries)))
    ∧ (∀ layer id,
         mars_service.normalize_layer M layer = Ok id
         ↔ ∃ entry, entry ∈ entries ∧ field "id" entry = Some (JStr id)
                    ∧ Py.lower (Py.strip layer)
                      ∈ Py.lower <$> advertised_names entry)
    ∧ (∀ entry, entry ∈ entries →
         field "minZoom" entry = Some (JInt mars_service.MIN_ZOOM)
         ∧ field "maxZoom" entry = Some (JInt M)).
Proof.
  eexists. split; [reflexivity|]. split; [reflexivity|]. split.
  - intros layer id. split.
    + intros Hn. destruct (normalize_layer_canonical _ _ _ Hn) as [-> | ->].
      * apply normalize_layer_viking in Hn. eexists. split; [by left|].
        split; [reflexivity|]. exact Hn.
      * apply normalize_layer_mola in Hn. eexists.
        split; [right; by left|]. split; [reflexivity|]. exact Hn.
    + intros (entry & Hin & Hid & Hk).
      rewrite !elem_of_cons, elem_of_nil in Hin.
      destruct Hin as [-> | [-> | []]]; injection Hid as <-.
      * by apply normalize_layer_viking.
      * by apply normalize_layer_mola.
  - intros entry Hin. rewrite !elem_of_cons, elem_of_nil in Hin.
    by destruct Hin as [-> | [-> | []]].
Qed.

(** X6. Whatever value MARS_MAX_ZOOM gives the maximum zoom, the zoom
    check of Mars accepts exactly the zooms between the minimum and that
    maximum, and the bounds written in the layer metadata and in the
    invalid_zoom answer are those same bounds; when the maximum is
    negative the handler answers every request with invalid_zoom. *)
Theorem mars_zoom_advertised M z :
  (mars_service.validate_zoom_level M z = Ok tt
   ↔ mars_service.MIN_ZOOM ≤ z ≤ M)
  ∧ (∀ id, id ∈ [mars_service.VIKING; mars_service.MOLA] →
       field "minZoom" (mars_service.metadata M id) = Some (JInt mars_service.MIN_ZOOM)
       ∧ field "maxZoom" (mars_service.metadata M id) = Some (JInt M))
  ∧ (detail_field "minZoom" (mars_service.invalid_zoom M z)
       = Some (JInt mars_service.MIN_ZOOM)
     ∧ detail_field "maxZoom" (mars_service.invalid_zoom M z) = Some (JInt M))
  ∧ (M < 0 → ∀ y x l v s t f,
       mars_service.get_mars_tile M z y x l v s t f
       = Ret (mars_service.invalid_zoom M z)).
Proof.
  split; [|split; [|split]].
  - unfold mars_service.validate_zoom_level, raise_if.
    destruct (Z.ltb_spec z mars_service.MIN_ZOOM), (Z.ltb_spec M z); simpl;
      split; (done || lia).
  - intros id. rewrite !elem_of_cons, elem_of_nil. by intros [-> | [-> | []]].
  - done.
  - intros HM y x l v s t f. apply mars_handler_zoom.
    unfold mars_service.MIN_ZOOM. lia.
Qed.

Lemma mars_zoom_advertised_witness :
  mars_service.get_mars_tile (-1) 0 0 0 "viking" "1.0.0" "default"
    "default028mm" "jpg"
  = Ret (mars_service.invalid_zoom (-1) 0).
Proof.
  assert (H : -1 < 0) by lia.
  exact (proj2 (proj2 (proj2 (mars_zoom_advertised (-1) 0))) H
           0 0 "viking" "1.0.0" "default" "default028mm" "jpg").
Defined.

(** X7. The coordinate check of Mars sets no bound on the zoom: tile 0/0
    passes it at every zoom from -1074 up, and at a negative zoom, where
    2 ** z is a fraction, it is the only tile that passes.  The zoom
    bounds rest on the zoom check alone. *)
Theorem coordinate_check_at_any_zoom z x y :
  -1074 ≤ z →
  mars_service.validate_tile_coordinates z 0 0 = Ok tt
  ∧ (z < 0 →
     (mars_service.validate_tile_coordinates z x y = Ok tt ↔ x = 0 ∧ y = 0)).
Proof.
  intros Hz. unfold mars_service.validate_tile_coordinates, raise_if. cbv zeta.
  destruct (decide (0 ≤ z)) as [Hp|Hn].
  - split; [|lia]. rewrite square_check_decide by done.
    rewrite bool_decide_eq_true_2; [done|]. pose proof (Z.pow_pos_nonneg 2 z). lia.
  - assert (Hpow : Py.pow2 z = (1 # Pos.pow 2 (Z.to_pos (- z)))%Q).
    { unfold Py.pow2. destruct (Z.leb_spec 0 z); [lia|].
      destruct (Z.ltb_spec z (-1074)); [lia | done]. }
    rewrite Hpow.
    assert (Hge : ∀ n, Py.ge_num n (1 # Pos.pow 2 (Z.to_pos (- z))) = (1 <=? n)).
    { intros n. unfold Py.ge_num, Qle_bool. simpl.
      apply eq_true_iff_eq. rewrite !Z.leb_le. nia. }
    rewrite !Hge. simpl. split; [done|]. intros _.
    destruct (Z.leb_spec 1 x), (Z.leb_spec 1 y), (Z.ltb_spec x 0), (Z.ltb_spec y 0);
      simpl; split; intros Hres; try done; try lia.
Qed.

Lemma coordinate_check_at_any_zoom_witness :
  -1074 ≤ -3
  ∧ mars_service.validate_tile_coordinates (-3) 0 0 = Ok tt.
Proof.
  assert (H : -1074 ≤ -3) by lia.
  split; [exact H|]. exact (proj1 (coordinate_check_at_any_zoom (-3) 0 0 H)).
Defined.

(** ** The proxy route of main.py *)

(** X8. The proxy route asks the upstream for every request, whatever its
    date, zoom, row and column are: it validates nothing.  When
    /earth/tile asks the upstream for a request with the tile matrix set
    GoogleMapsCompatible_Level9, the proxy asks for the same URL. *)
Theorem proxy_skips_validation txt u layer date z y x format :
  (∀ upstream,
     (run upstream (proxy_earth_tile txt z x y date layer format)).1
     = [proxy_tile_url z x y date layer format])
  ∧ (∀ url,
       requested_url (gibs_service.get_earth_tile u layer date z y x
                        "GoogleMapsCompatible_Level9" format) = Some url →
       requested_url (proxy_earth_tile txt z x y date layer format) = Some url)
  ∧ (gibs_service.validate_date u date ≠ Ok tt →
     fetches (gibs_service.get_earth_tile u layer date z y x
                "GoogleMapsCompatible_Level9" format) = false
     ∧ fetches (proxy_earth_tile txt z x y date layer format) = true).
Proof.
  split; [done|]. split.
  - intros url Hu.
    apply (requested_url_template (mk_env u 0) Earth
             (mk_request z y x layer date "" ""
                "GoogleMapsCompatible_Level9" format)) in Hu.
    by rewrite Hu.
  - intros Hd. split; [|done].
    destruct (gibs_service.validate_date u date) as [[]|r] eqn:Hv; [done|].
    by rewrite (earth_handler_date _ _ _ _ _ _ _ _ r).
Qed.

Lemma proxy_skips_validation_witness :
  fetches (gibs_service.get_earth_tile (utcnow sample_env) "L" "2025-13-40"
             99 (-1) (-1) "GoogleMapsCompatible_Level9" "jpg") = false
  ∧ fetches (proxy_earth_tile (λ _ _, "") 99 (-1) (-1) "2025-13-40" "L" "jpg")
    = true.
Proof.
  assert (H : gibs_service.validate_date (utcnow sample_env) "2025-13-40" ≠ Ok tt)
    by (by vm_compute).
  exact (proj2 (proj2 (proxy_skips_validation (λ _ _, "") (utcnow sample_env)
                         "L" "2025-13-40" 99 (-1) (-1) "jpg")) H).
Defined.

(** X9. The proxy route relays no upstream status: it answers 502 to
    every upstream status outside 2xx, 404 included, and to every failure
    of the HTTP client, and 200 to an upstream 2xx when the format, which
    goes into the media type, can be encoded as latin-1; when it cannot,
    building the response raises UnicodeEncodeError, which is no
    httpx.HTTPError and escapes the handler.  /earth/tile answers a valid
    request with the upstream's own status when that is not a 2xx. *)
Theorem proxy_statuses txt e q sc content msg :
  let p := proxy_earth_tile txt (zoom q) (col q) (row q) (date q) (layer q)
             (format q) in
  status_of (outcome p (Responded sc content))
    = (if is_success sc then if Py.latin1 (format q) then 200 else 500
       else 502)
  ∧ (is_success sc = true → Py.latin1 (format q) = false →
     outcome p (Responded sc content) = Unhandled "UnicodeEncodeError")
  ∧ status_of (outcome p (RaisedTimeout msg)) = 502
  ∧ status_of (outcome p (RaisedRequestError msg)) = 502
  ∧ (Datetime.wellformed (utcnow e) = true → Spec.valid e Earth q →
     is_success sc = false →
     status_of (outcome (handler e Earth q) (Responded sc content)) = sc).
Proof.
  split; [|split; [|split; [|split]]]; try done.
  - unfold outcome. simpl. destruct (is_success sc); [|done].
    unfold new_Response. rewrite proxy_init_headers.
    by destruct (Py.latin1 (format q)).
  - intros Hs Hl. unfold outcome. simpl. rewrite Hs.
    unfold new_Response. by rewrite proxy_init_headers, Hl.
  - intros Hw Hv Hs. destruct (valid_handler e Earth q Hw Hv) as (url & t & Hh).
    unfold outcome. rewrite Hh. simpl. unfold gibs_service.classify. rewrite Hs.
    destruct (Z.eqb_spec sc 404) as [-> | _]; done.
Qed.

Lemma proxy_statuses_witness :
  status_of (outcome (handler sample_env Earth (earth_request 6 18 23 "2025-10-03"))
               (Responded 404 "")) = 404
  ∧ status_of (outcome (proxy_earth_tile (λ _ _, "") 6 23 18 "2025-10-03"
                          config.EARTH_DEFAULT_LAYER "jpg")
                 (Responded 404 "")) = 502
  ∧ outcome (proxy_earth_tile (λ _ _, "") 6 23 18 "2025-10-03"
               config.EARTH_DEFAULT_LAYER "画")
      (Responded 200 "") = Unhandled "UnicodeEncodeError".
Proof.
  assert (Hv : Spec.valid sample_env Earth (earth_request 6 18 23 "2025-10-03")).
  { split; [by vm_compute|]. split; [by vm_compute|].
    apply earth_request_others_pass. }
  split; [|split].
  - exact (proj2 (proj2 (proj2 (proj2 (proxy_statuses (λ _ _, "") sample_env
             (earth_request 6 18 23 "2025-10-03") 404 "" "")))) eq_refl Hv eq_refl).
  - exact (proj1 (proxy_statuses (λ _ _, "") sample_env
             (earth_request 6 18 23 "2025-10-03") 404 "" "")).
  - exact (proj1 (proj2 (proxy_statuses (λ _ _, "") sample_env
             (mk_request 6 18 23 config.EARTH_DEFAULT_LAYER "2025-10-03" "" ""
                "" "画") 200 "" "")) eq_refl eq_refl).
Defined.

(** X10. The proxy route labels the bytes image/ followed by the format,
    while the tile routes look the format up in the content type table:
    the two labels are the same exactly for the formats jpeg, png and
    tiff, so that a jpg tile is image/jpg from the proxy and image/jpeg
    from /earth/tile.  Either route returns its tile only when the texts
    it writes to the response can be encoded as latin-1: the format for
    the proxy, the layer and the date for /earth/tile. *)
Theorem proxy_media_type txt z x y date layer format content :
  media_type (outcome (proxy_earth_tile txt z x y date layer format)
                (Responded 200 content))
    = (if Py.latin1 format then Some ("image/" ++ format) else None)
  ∧ (∀ u tms,
       fetches (gibs_service.get_earth_tile u layer date z y x tms format) = true →
       media_type (outcome (gibs_service.get_earth_tile u layer date z y x tms format)
                     (Responded 200 content))
       = if Py.latin1 layer && Py.latin1 date
         then Some (config.content_type format) else None)
  ∧ (config.content_type format = "image/" ++ format
     ↔ format ∈ ["jpeg"; "png"; "tiff"]).
Proof.
  split; [|split].
  - unfold outcome. simpl. unfold new_Response. rewrite proxy_init_headers.
    by destruct (Py.latin1 format).
  - intros u tms. unfold gibs_service.get_earth_tile.
    destruct (gibs_service.validate_date u date); [|done]. simpl.
    destruct (gibs_service.validate_coordinates z x y); [|done]. intros _.
    unfold outcome. simpl.
    unfold gibs_service.tile_response, new_Response.
    rewrite earth_init_headers. by destruct (_ && _).
  - split.
    + intros He. pose proof (content_type_values format) as Hv.
      rewrite !elem_of_cons, elem_of_nil in *.
      destruct Hv as [Hc | [Hc | [Hc | []]]]; rewrite Hc in He;
        vm_compute in He; simplify_eq; auto.
    + rewrite !elem_of_cons, elem_of_nil.
      intros [-> | [-> | [-> | []]]]; by vm_compute.
Qed.

Lemma proxy_media_type_witness :
  fetches (gibs_service.get_earth_tile (utcnow sample_env) "L" "2025-10-03"
             6 18 23 "T" "jpg") = true
  ∧ media_type (outcome (gibs_service.get_earth_tile (utcnow sample_env) "L"
                           "2025-10-03" 6 18 23 "T" "jpg") (Responded 200 ""))
    = Some "image/jpeg"
  ∧ media_type (outcome (proxy_earth_tile (λ _ _, "") 6 23 18 "2025-10-03" "L" "jpg")
                  (Responded 200 ""))
    = Some "image/jpg".
Proof.
  assert (H : fetches (gibs_service.get_earth_tile (utcnow sample_env) "L"
                         "2025-10-03" 6 18 23 "T" "jpg") = true)
    by (by vm_compute).
  split; [exact H|]. split.
  - exact (proj1 (proj2 (proxy_media_type (λ _ _, "") 6 23 18 "2025-10-03" "L"
                           "jpg" "")) (utcnow sample_env) "T" H).
  - exact (proj1 (proxy_media_type (λ _ _, "") 6 23 18 "2025-10-03" "L" "jpg" "")).
Defined.

(** ** Dates over time *)

Lemma lex_le_trans a b c :
  length a = length b → length b = length c →
  Datetime.lex_gt a b = false → Datetime.lex_gt b c = false →
  Datetime.lex_gt a c = false.
Proof.
  revert b c. induction a as [|x a IH]; intros [|y b] [|z c]; try done.
  simpl. intros [= Hab] [= Hbc].
  rewrite !orb_false_iff, !andb_false_iff, !Z.ltb_ge, !Z.eqb_neq.
  intros [Hyx H1] [Hzy H2]. split; [lia|].
  destruct (decide (x = z)) as [-> | Hxz]; [|by left].
  right. assert (y = z) as -> by lia.
  destruct H1 as [? | H1]; [done|]. destruct H2 as [? | H2]; [done|].
  by apply (IH b c).
Qed.

(** X11. A date the Earth handler accepts stays accepted: if it passes the
    date check at one reading of the clock, it passes at every later
    one. *)
Theorem date_accepted_later u u' date :
  datetime_le u u' →
  gibs_service.validate_date u date = Ok tt →
  gibs_service.validate_date u' date = Ok tt.
Proof.
  unfold datetime_le, gibs_service.validate_date, raise_if.
  intros Hle. destruct (Datetime.strptime_Ymd date) as [p|]; [|done].
  destruct (Datetime.gt p u) eqn:Hp; [done|]. intros _.
  replace (Datetime.gt p u') with false; [done|].
  symmetry. apply (lex_le_trans _ (Datetime.as_tuple u)); done.
Qed.

Lemma date_accepted_later_witness :
  gibs_service.validate_date (Datetime.mk_datetime 2031 1 1 0 0 0 0) "2025-10-04"
  = Ok tt.
Proof.
  assert (H1 : datetime_le (utcnow sample_env) (Datetime.mk_datetime 2031 1 1 0 0 0 0))
    by reflexivity.
  assert (H2 : gibs_service.validate_date (utcnow sample_env) "2025-10-04" = Ok tt)
    by reflexivity.
  exact (date_accepted_later _ _ _ H1 H2).
Defined.

(** ** What never causes a refusal, and which refusal comes first *)

(** X12. No handler refuses a request for its version, style or tile
    matrix set, and the handlers of Earth, Moon and Mercury refuse none for
    its layer either: with these parameters replaced, a handler returns the
    same refusal, or asks the upstream as before. *)
Theorem names_never_refused e b q l v s t :
  (b = Mars → l = layer q) →
  (∀ r, handler e b q = Ret r ↔ handler e b (with_names q l v s t) = Ret r)
  ∧ fetches (handler e b q) = fetches (handler e b (with_names q l v s t)).
Proof.
  intros Hl. destruct b; simpl.
  - unfold gibs_service.get_earth_tile.
    destruct (gibs_service.validate_date _ _); [|done]. simpl.
    by destruct (gibs_service.validate_coordinates _ _ _).
  - unfold moon_service.get_moon_tile.
    by destruct (moon_service.validate_coordinates _ _ _).
  - rewrite Hl by done. unfold mars_service.get_mars_tile.
    destruct (mars_service.validate_zoom_level _ _); [|done]. simpl.
    destruct (mars_service.normalize_layer _ _); [|done]. simpl.
    by destruct (mars_service.validate_tile_coordinates _ _ _).
  - unfold mercury_service.get_mercury_tile. cbv zeta.
    rewrite !handle_raise_if. destruct (negb _); [done|].
    do 2 (destruct (_ || _); [done|]). by destruct (_ || _).
Qed.

Lemma names_never_refused_witness :
  fetches (handler sample_env Moon
             (mk_request 2 1 3 "L" "" "1.0.0" "default" "default028mm" "jpg"))
  = fetches (handler sample_env Moon
               (with_names (mk_request 2 1 3 "L" "" "1.0.0" "default"
                              "default028mm" "jpg")
                  "no such layer" "9" "" "x/y")).
Proof.
  assert (H : Moon = Mars → "no such layer" = "L") by discriminate.
  exact (proj2 (names_never_refused sample_env Moon
                  (mk_request 2 1 3 "L" "" "1.0.0" "default" "default028mm" "jpg")
                  "no such layer" "9" "" "x/y" H)).
Defined.

(** X13. When a request fails several checks, the first check of the
    handler decides the answer: Earth reports the date whatever the
    coordinates are; Mars reports an unsupported layer, with 422, whatever
    the coordinates are, once the zoom is in range; Mercury reports the
    column whatever the row is. *)
Theorem refusal_order :
  (∀ u l d z y x t f r,
     gibs_service.validate_date u d = Raise r →
     gibs_service.get_earth_tile u l d z y x t f = Ret r
     ∧ Spec.kind_of r = Some Spec.InvalidDate)
  ∧ (∀ M z y x l v s t f,
       mars_service.MIN_ZOOM ≤ z ≤ M →
       mars_service.SUPPORTED_LAYERS !! Py.lower (Py.strip l) = None →
       mars_service.get_mars_tile M z y x l v s t f
       = Ret (mars_service.unsupported_layer M l))
  ∧ (∀ z x y l v s t f,
       Py.lower f = "jpg" → 0 ≤ z ≤ mercury_service.MAX_ZOOM →
       ¬ 0 ≤ x < 2 ^ (z + 1) →
       mercury_service.get_mercury_tile z x y l v s t f
       = Ret (mercury_service.x_out_of_bounds z x (2 ^ (z + 1)) (2 ^ z))).
Proof.
  split; [|split].
  - intros u l d z y x t f r Hr. split; [by apply earth_handler_date|].
    unfold gibs_service.validate_date, raise_if in Hr.
    destruct (Datetime.strptime_Ymd d) as [p|]; [|by injection Hr as <-].
    destruct (Datetime.gt p u); [by injection Hr as <- | done].
  - intros M z y x l v s t f Hz Hl. apply mars_handler_layer; [done|].
    unfold mars_service.normalize_layer. by rewrite Hl.
  - intros z x y l v s t f Hf Hz Hx. rewrite mercury_handler by done.
    by rewrite bool_decide_eq_false_2.
Qed.

Lemma refusal_order_witness :
  mars_service.get_mars_tile 7 3 99 99 "CTX" "1.0.0" "default" "default028mm" "jpg"
  = Ret (mars_service.unsupported_layer 7 "CTX").
Proof.
  assert (H1 : mars_service.MIN_ZOOM ≤ 3 ≤ 7) by (by vm_compute).
  assert (H2 : mars_service.SUPPORTED_LAYERS !! Py.lower (Py.strip "CTX") = None)
    by (by vm_compute).
  exact (proj1 (proj2 refusal_order) 7 3 99 99 "CTX" "1.0.0" "default"
           "default028mm" "jpg" H1 H2).
Defined.

(** ** The statuses of Mercury *)

(** X14. The Mercury route lets no exception escape and its status is one
    of 200, 400, 404, 406, 422, 500 and 502, whatever the upstream does;
    it is 422 exactly when a declared constraint is broken, that is when
    zoom, column or row is negative. *)
Theorem mercury_statuses z x y l v s t f upstream :
  let r := (run upstream (mercury_service.tile_route z x y l v s t f)).2 in
  status_of r ∈ [200; 400; 404; 406; 422; 500; 502]
  ∧ (∀ type_name, r ≠ Unhandled type_name)
  ∧ (status_of r = 422 ↔ z < 0 ∨ x < 0 ∨ y < 0).
Proof.
  unfold mercury_service.tile_route, mercury_service.query_ok.
  destruct (Z.leb_spec 0 z), (Z.leb_spec 0 x), (Z.leb_spec 0 y);
    cbn [andb]; cbv zeta;
    try (split; [|split]; [rewrite !elem_of_cons; auto 10 | done | split; [lia | done]]).
  unfold mercury_service.get_mercury_tile.
  assert (Hn : ∀ r, status_of r ∈ [200; 400; 404; 406; 500; 502] →
                    (∀ type_name, r ≠ Unhandled type_name) →
                    status_of r ∈ [200; 400; 404; 406; 422; 500; 502]
                    ∧ (∀ type_name, r ≠ Unhandled type_name)
                    ∧ (status_of r = 422 ↔ z < 0 ∨ x < 0 ∨ y < 0)).
  { intros r Hs Hu. rewrite !elem_of_cons, elem_of_nil in *.
    split; [intuition|]. split; [done|]. split; [|lia].
    intros H422. rewrite H422 in Hs. intuition discriminate. }
  rewrite handle_raise_if. destruct (negb _);
    [apply Hn; [simpl; rewrite !elem_of_cons; auto 10 | done]|].
  rewrite handle_raise_if. destruct (_ || _);
    [apply Hn; [simpl; rewrite !elem_of_cons; auto 10 | done]|].
  cbv zeta. rewrite handle_raise_if. destruct (_ || _);
    [apply Hn; [simpl; rewrite !elem_of_cons; auto 10 | done]|].
  rewrite handle_raise_if. destruct (_ || _);
    [apply Hn; [simpl; rewrite !elem_of_cons; auto 10 | done]|].
  cbn [handle run snd]. unfold mercury_service.classify.
  destruct (upstream _) as [sc c| | |];
    try (apply Hn; [simpl; rewrite !elem_of_cons; auto 10 | done]).
  destruct (sc =? 404);
    [apply Hn; [simpl; rewrite !elem_of_cons; auto 10 | done]|].
  destruct (negb (sc =? 200)); [|built];
    apply Hn; (done || simpl; rewrite !elem_of_cons; auto 10).
Qed.

(** ** Headers of a successful response *)

(** X15. A tile served after an upstream 200 carries Cache-Control:
    public, max-age=86400 for Earth and public, max-age=2592000 for Moon,
    Mars and Mercury, and names in X-Tile-Layer the layer the URL was
    built with, which for Mars is the resolved layer and not the alias
    the caller gave.  The tile is served when that layer can be encoded
    as latin-1, as a header value must be: the resolved layer of Mars
    always can, while a layer of Earth, Moon or Mercury that cannot is
    answered with status 500 although the upstream delivered the tile. *)
Theorem success_headers e b q content :
  Datetime.wellformed (utcnow e) = true → Spec.valid e b q →
  let o := outcome (handler e b q) (Responded 200 content) in
  (Py.latin1 (canonical_layer e b q) = true →
   header "Cache-Control" o
     = Some (match b with
             | Earth => "public, max-age=86400"
             | _ => "public, max-age=2592000"
             end)
   ∧ header "X-Tile-Layer" o = Some (canonical_layer e b q))
  ∧ (Py.latin1 (canonical_layer e b q) = false →
     status_of o = 500 ∧ b ≠ Mars)
  ∧ (b = Mars → Py.latin1 (canonical_layer e b q) = true).
Proof.
  intros Hw Hv.
  assert (Hmars : b = Mars → Py.latin1 (canonical_layer e b q) = true).
  { intros ->. destruct Hv as (_ & _ & Ho).
    destruct (mars_layer_passes e q Ho) as [c Hc].
    unfold canonical_layer. rewrite Hc. by apply (canonical_latin1 _ _ _ Hc). }
  destruct (valid_handler e b q Hw Hv) as (url & t & Hh).
  unfold outcome. rewrite Hh. cbn [run snd].
  split; [|split; [|done]].
  - intros Hl. destruct b.
    + destruct Hv as (_ & _ & (d & Hd & _) & _). simpl in Hl.
      unfold gibs_service.classify, gibs_service.tile_response, new_Response.
      rewrite earth_init_headers, Hl.
      by rewrite (isascii_latin1 _ (iso_date_ascii _ _ Hd)).
    + simpl in Hl.
      unfold moon_service.classify, moon_service.tile_response, new_Response.
      by rewrite moon_init_headers, Hl.
    + destruct Hv as (_ & _ & Ho). destruct (mars_layer_passes e q Ho) as [c Hc].
      unfold canonical_layer in *. rewrite Hc in *.
      unfold mars_service.classify, mars_service.tile_response, new_Response.
      by rewrite mars_init_headers, Hl.
    + destruct Hv as (_ & _ & Ho). simpl in Ho, Hl.
      unfold mercury_service.classify, mercury_service.tile_response, new_Response.
      by rewrite mercury_init_headers, Hl, (jpg_casing_latin1 _ Ho).
  - intros Hl. destruct b.
    + simpl in Hl. split; [|done].
      unfold gibs_service.classify, gibs_service.tile_response, new_Response.
      by rewrite earth_init_headers, Hl.
    + simpl in Hl. split; [|done].
      unfold moon_service.classify, moon_service.tile_response, new_Response.
      by rewrite moon_init_headers, Hl.
    + rewrite Hmars in Hl by done. discriminate Hl.
    + simpl in Hl. split; [|done].
      unfold mercury_service.classify, mercury_service.tile_response, new_Response.
      by rewrite mercury_init_headers, Hl.
Qed.

Lemma success_headers_witness :
  header "X-Tile-Layer"
    (outcome (handler sample_env Mars
                (mk_request 4 7 9 "MOLA" "" "1.0.0" "default" "default028mm" "jpg"))
       (Responded 200 ""))
  = Some "Mars_MGS_MOLA_MEGR_global_463m".
Proof.
  assert (Hv : Spec.valid sample_env Mars
                 (mk_request 4 7 9 "MOLA" "" "1.0.0" "default" "default028mm" "jpg")).
  { split; [by vm_compute|]. split; [by vm_compute|]. split.
    - eexists. vm_compute. reflexivity.
    - simpl. rewrite !elem_of_cons. auto. }
  exact (proj2 (proj1 (success_headers sample_env Mars
                         (mk_request 4 7 9 "MOLA" "" "1.0.0" "default"
                            "default028mm" "jpg") "" eq_refl Hv) eq_refl)).
Defined.
